(** * TypeChat language-model client: a shallow embedding of [model.ts]

    The development follows the TypeScript source: the classifier
    [isTransientHttpError], the request built by [complete], the extraction
    of the completion from a response, the retry loop of [complete] and the
    provider selection of [createLanguageModel].  The compiled build
    [dist/model.js] is embedded in [Module Dist] as far as it is compared
    with the source. *)

From Stdlib Require Import ZArith PrimFloat.
From stdpp Require Import base option list strings pretty gmap.
From Equations Require Import Equations.

Local Open Scope Z_scope.
Local Open Scope string_scope.
Local Open Scope list_scope.

(* Decimal literals of the source such as 0.2 denote the nearest double. *)
Set Warnings "-inexact-float,-register-all".

(** ** Values *)

(** A JavaScript value as far as request and response payloads have them.
    Numbers of payloads are IEEE doubles; an object is a finite map from
    property names to values. *)
Inductive JsVal : Type :=
| JUndefined
| JNull
| JBool (b : bool)
| JNumber (n : float)
| JString (s : string)
| JArray (items : list JsVal)
| JObject (fields : gmap string JsVal).

(** What a JavaScript computation ends with: a value, or a thrown fault
    (for an [async] function: a rejected promise). *)
Inductive Fault : Type :=
| TypeError (reading : string)
| JsError (message : string).

Inductive Outcome (A : Type) : Type :=
| Returned (a : A)
| Thrown (e : Fault).
Arguments Returned {A} a.
Arguments Thrown {A} e.

(** Modelled from the spec: the [Result] type of the module [./result],
    which is imported by the source and not part of it: a tagged union of
    [{ success: true, data }] and [{ success: false, message }], with the
    two constructors [success] and [error]. *)
Inductive Result : Type :=
| success (data : JsVal)
| error (message : string).

#[global] Instance Outcome_ret : MRet Outcome := fun _ a => Returned a.
#[global] Instance Outcome_bind : MBind Outcome := fun _ _ f o =>
  match o with
  | Returned a => f a
  | Thrown e => Thrown e
  end.

(** ** The transient-failure classifier *)

(** [isTransientHttpError], a [switch] over five status codes. *)
Definition isTransientHttpError (code : Z) : bool :=
  match code with
  | 429 | 500 | 502 | 503 | 504 => true
  | _ => false
  end.

(** ** Property access *)

(** [undefined] and [null], the values on which [?.] and [??] give way and
    on which a plain property access throws. *)
Definition nullish (v : JsVal) : bool :=
  match v with
  | JUndefined | JNull => true
  | _ => false
  end.

(** [v.name] for a property name that no prototype defines ([choices],
    [message], [content], [generations], [text]): the own property of an
    object, [undefined] on any other value that is not nullish. *)
Definition getMember (v : JsVal) (name : string) : Outcome JsVal :=
  match v with
  | JUndefined | JNull => Thrown (TypeError name)
  | JObject fields => Returned (default JUndefined (fields !! name))
  | _ => Returned JUndefined
  end.

(** [v[i]] for a literal index: an array element, a character of a string,
    the property named by the index of an object. *)
Definition getElement (v : JsVal) (i : nat) : Outcome JsVal :=
  match v with
  | JUndefined | JNull => Thrown (TypeError (pretty i))
  | JArray items => Returned (default JUndefined (items !! i))
  | JString s =>
      Returned (from_option (fun c => JString (String c EmptyString))
                            JUndefined (String.get i s))
  | JObject fields => Returned (default JUndefined (fields !! pretty i))
  | _ => Returned JUndefined
  end.

(** ** The request of an attempt and the extraction of the completion *)

(** The object literal [params] of [complete]: the spread of
    [defaultParams], then the spread of the provider's fields, then
    [temperature]; a later binding of a name replaces an earlier one. *)
Definition buildParams (defaultParams : gmap string JsVal) (isOpenAI : bool)
    (prompt : string) : JsVal :=
  JObject
    (<["temperature" := JNumber 0.2]>
       ((if isOpenAI
         then {[ "messages" :=
                   JArray [JObject {[ "role" := JString "user";
                                      "content" := JString prompt ]}];
                 "n" := JNumber 1 ]}
         else {[ "prompt" := JString prompt;
                 "k" := JNumber 0;
                 "stop_sequences" := JArray [];
                 "return_likelihoods" := JString "NONE" ]})
        ∪ defaultParams)).

(** [success(result.data.choices[0].message?.content ?? "")] *)
Definition extractOpenAI (data : JsVal) : Outcome Result :=
  choices ← getMember data "choices";
  first ← getElement choices 0;
  message ← getMember first "message";
  content ← (if nullish message then Returned JUndefined
             else getMember message "content");
  Returned (success (if nullish content then JString "" else content)).

(** [success(result.data.generations[0].text)] *)
Definition extractGenerate (data : JsVal) : Outcome Result :=
  generations ← getMember data "generations";
  first ← getElement generations 0;
  text ← getMember first "text";
  Returned (success text).

(** ** The client *)

(** The configuration given to [axios.create]: the headers the program
    sets.  What axios adds of its own when it sends a request (its default
    headers) is not part of it. *)
Record AxiosRequestConfig : Type := {
  headers : gmap string string
}.

(** A [TypeChatLanguageModel] made by [createAxiosLanguageModel]: the two
    optional tunables of the interface, and what the closure [complete]
    captures.  The tunables are counts (of attempts, of milliseconds) and
    are integers here. *)
Record TypeChatLanguageModel : Type := {
  retryMaxAttempts : option Z;
  retryPauseMs : option Z;
  url : string;
  config : AxiosRequestConfig;
  defaultParams : gmap string JsVal;
  isOpenAI : bool
}.

(** [createAxiosLanguageModel]: the model object has [complete] only, the
    tunables are left undefined. *)
Definition createAxiosLanguageModel (url : string) (config : AxiosRequestConfig)
    (defaultParams : gmap string JsVal) (isOpenAI : bool) : TypeChatLanguageModel :=
  {| retryMaxAttempts := None;
     retryPauseMs := None;
     url := url;
     config := config;
     defaultParams := defaultParams;
     isOpenAI := isOpenAI |}.

(** What [client.post] sends and what it resolves to.  [validateStatus]
    accepts every status, so a response of any status is a value. *)
Record Request : Type := {
  req_url : string;
  req_config : AxiosRequestConfig;
  req_body : JsVal
}.

Record Response : Type := {
  status : Z;
  statusText : string;
  data : JsVal
}.

(** The effects of [complete], in the order they happen. *)
Inductive Event : Type :=
| ConsoleLog (args : list JsVal)
| HttpPost (r : Request)
| Sleep (ms : Z).

Definition World : Type := list Event.

Definition posts (w : World) : list Request :=
  omap (fun e => match e with HttpPost r => Some r | _ => None end) w.

Definition sleeps (w : World) : list Z :=
  omap (fun e => match e with Sleep ms => Some ms | _ => None end) w.

(** The service behind the transport: its response to the [k]-th request
    issued (counted from 0). *)
Definition Transport : Type := nat -> Request -> Response.

Definition post (transport : Transport) (r : Request) (w : World)
    : Response * World :=
  (transport (length (posts w)) r, (w ++ [HttpPost r])).

(** The body of the [while] loop up to the response: build [params], log
    them, post them. *)
Definition attempt (transport : Transport) (m : TypeChatLanguageModel)
    (prompt : string) (w : World) : Response * World :=
  let params := buildParams (defaultParams m) (isOpenAI m) prompt in
  let w := (w ++ [ConsoleLog [JString "[typechat]";
                              JObject {[ "params" := params ]}]]) in
  post transport
       {| req_url := url m; req_config := config m; req_body := params |} w.

(** ** The retry loop *)

(** The template literal of the error exit. *)
Definition restApiError (result : Response) : string :=
  "REST API error " +:+ pretty (status result) +:+ ": " +:+ statusText result.

(** The [while (true)] loop of [complete], from a value of [retryCount].
    It leaves on status 200, on a status that is not transient and when
    [retryCount >= retryMaxAttempts]; otherwise it sleeps, increments
    [retryCount] and goes round again. *)
Equations? completeLoop (transport : Transport) (m : TypeChatLanguageModel)
    (prompt : string) (maxAttempts pauseMs : Z) (retryCount : Z) (w : World)
    : Outcome Result * World
    by wf (Z.to_nat (maxAttempts - retryCount)) lt :=
  completeLoop transport m prompt maxAttempts pauseMs retryCount w
    with attempt transport m prompt w => {
    | (result, w1) with Z.eq_dec (status result) 200 => {
      | left _ :=
          (if isOpenAI m then extractOpenAI (data result)
           else extractGenerate (data result), w1);
      | right _ with isTransientHttpError (status result) => {
        | false :=
            (Returned (error (restApiError result)), w1);
        | true with Z_ge_lt_dec retryCount maxAttempts => {
          | left _ :=
              (Returned (error (restApiError result)), w1);
          | right _ :=
              completeLoop transport m prompt maxAttempts pauseMs
                           (retryCount + 1) (w1 ++ [Sleep pauseMs]) } } } }.
Proof. lia. Qed.

(** [model.retryMaxAttempts ?? 3] and [model.retryPauseMs ?? 1000] *)
Definition maxAttemptsOf (m : TypeChatLanguageModel) : Z :=
  default 3 (retryMaxAttempts m).

Definition pauseMsOf (m : TypeChatLanguageModel) : Z :=
  default 1000 (retryPauseMs m).

(** [complete]: [retryCount] starts at 0, the tunables are read once. *)
Definition complete (transport : Transport) (m : TypeChatLanguageModel)
    (prompt : string) (w : World) : Outcome Result * World :=
  completeLoop transport m prompt (maxAttemptsOf m) (pauseMsOf m) 0 w.

(** ** The factories and the selection by environment variables *)

(** [missingEnvironmentVariable] throws, whatever type is expected. *)
Definition missingEnvironmentVariable {A : Type} (name : string) : Outcome A :=
  Thrown (JsError ("Missing environment variable: " +:+ name)).

(** The condition [if (env.NAME)] on a [string | undefined]: a defined
    string that is not empty. *)
Definition truthy (v : option string) : bool :=
  match v with
  | Some (String _ _) => true
  | _ => false
  end.

(** [v ?? alternative], the alternative evaluated only when [v] is
    undefined. *)
Definition coalesce (v : option string) (alternative : Outcome string)
    : Outcome string :=
  match v with
  | Some s => Returned s
  | None => alternative
  end.

Definition createOpenAILanguageModel (apiKey model : string)
    (endPoint org : option string) : TypeChatLanguageModel :=
  createAxiosLanguageModel
    (default "https://api.openai.com/v1/chat/completions" endPoint)
    {| headers := {[ "Authorization" := "Bearer " +:+ apiKey;
                     "OpenAI-Organization" := default "" org ]} |}
    {[ "model" := JString model ]}
    true.

Definition createAzureOpenAILanguageModel (apiKey endPoint : string)
    : TypeChatLanguageModel :=
  createAxiosLanguageModel endPoint
    {| headers := {[ "api-key" := apiKey ]} |} ∅ true.

Section Selection.

(** [parseInt] is the runtime's, not the program's: a parameter here. *)
Variable parseInt : string -> float.

Definition createCohereLanguageModel (apiKey model : string)
    (endPoint maxTokens : option string) : TypeChatLanguageModel :=
  createAxiosLanguageModel
    (default "https://api.cohere.ai/v1/generate" endPoint)
    {| headers := {[ "Authorization" := "BEARER " +:+ apiKey ]} |}
    {[ "model" := JString model;
       "max_tokens" := JNumber (parseInt (default "500" maxTokens)) ]}
    false.

(** [createLanguageModel]: three guarded blocks and a final throw. *)
Definition createLanguageModel (env : gmap string string)
    : Outcome TypeChatLanguageModel :=
  if truthy (env !! "OPENAI_API_KEY") then
    apiKey ← coalesce (env !! "OPENAI_API_KEY")
                      (missingEnvironmentVariable "OPENAI_API_KEY");
    model ← coalesce (env !! "OPENAI_MODEL")
                     (missingEnvironmentVariable "OPENAI_MODEL");
    endPoint ← coalesce (env !! "OPENAI_ENDPOINT")
                        (Returned "https://api.openai.com/v1/chat/completions");
    org ← coalesce (env !! "OPENAI_ORGANIZATION") (Returned "");
    Returned (createOpenAILanguageModel apiKey model (Some endPoint) (Some org))
  else if truthy (env !! "AZURE_OPENAI_API_KEY") then
    apiKey ← coalesce (env !! "AZURE_OPENAI_API_KEY")
                      (missingEnvironmentVariable "AZURE_OPENAI_API_KEY");
    endPoint ← coalesce (env !! "AZURE_OPENAI_ENDPOINT")
                        (missingEnvironmentVariable "AZURE_OPENAI_ENDPOINT");
    Returned (createAzureOpenAILanguageModel apiKey endPoint)
  else if truthy (env !! "COHERE_API_KEY") then
    apiKey ← coalesce (env !! "COHERE_API_KEY")
                      (missingEnvironmentVariable "COHERE_API_KEY");
    endPoint ← coalesce (env !! "COHERE_ENDPOINT")
                        (Returned "https://api.cohere.ai/v1/generate");
    maxTokens ← coalesce (env !! "MAX_TOKENS") (Returned "500");
    Returned (createCohereLanguageModel apiKey "command"
                                        (Some endPoint) (Some maxTokens))
  else
    missingEnvironmentVariable
      "OPENAI_API_KEY or AZURE_OPENAI_API_KEY or COHERE_API_KEY".

End Selection.

(** ** The compiled build *)

Module Dist.

(** The object literal [params] of [complete] in [dist/model.js]. *)
Definition buildParams (defaultParams : gmap string JsVal) (isOpenAI : bool)
    (prompt : string) : JsVal :=
  JObject
    (<["temperature" := JNumber 0]>
       ((if isOpenAI
         then {[ "messages" :=
                   JArray [JObject {[ "role" := JString "user";
                                      "content" := JString prompt ]}];
                 "n" := JNumber 1 ]}
         else {[ "prompt" := JString prompt;
                 "k" := JNumber 0;
                 "stop_sequences" := JArray [];
                 "return_likelihoods" := JString "NONE" ]})
        ∪ defaultParams)).

(** The body of the loop of the build up to the response; the build logs
    [{ params }] alone. *)
Definition attempt (transport : Transport) (m : TypeChatLanguageModel)
    (prompt : string) (w : World) : Response * World :=
  let params := buildParams (defaultParams m) (isOpenAI m) prompt in
  let w := w ++ [ConsoleLog [JObject {[ "params" := params ]}]] in
  post transport
       {| req_url := url m; req_config := config m; req_body := params |} w.

(** The error exit of the build: on status 400 it first logs
    [result.data.message], an access that throws on a nullish payload. *)
Definition errorExit (result : Response) (w : World) : Outcome Result * World :=
  if decide (status result = 400) then
    match getMember (data result) "message" with
    | Thrown e => (Thrown e, w)
    | Returned v => (Returned (error (restApiError result)), w ++ [ConsoleLog [v]])
    end
  else (Returned (error (restApiError result)), w).

(** The [while (true)] loop of [complete] in the build. *)
Equations? completeLoop (transport : Transport) (m : TypeChatLanguageModel)
    (prompt : string) (maxAttempts pauseMs : Z) (retryCount : Z) (w : World)
    : Outcome Result * World
    by wf (Z.to_nat (maxAttempts - retryCount)) lt :=
  completeLoop transport m prompt maxAttempts pauseMs retryCount w
    with attempt transport m prompt w => {
    | (result, w1) with Z.eq_dec (status result) 200 => {
      | left _ :=
          (if isOpenAI m then extractOpenAI (data result)
           else extractGenerate (data result), w1);
      | right _ with isTransientHttpError (status result) => {
        | false := errorExit result w1;
        | true with Z_ge_lt_dec retryCount maxAttempts => {
          | left _ := errorExit result w1;
          | right _ :=
              completeLoop transport m prompt maxAttempts pauseMs
                           (retryCount + 1) (w1 ++ [Sleep pauseMs]) } } } }.
Proof. lia. Qed.

Definition complete (transport : Transport) (m : TypeChatLanguageModel)
    (prompt : string) (w : World) : Outcome Result * World :=
  completeLoop transport m prompt (maxAttemptsOf m) (pauseMsOf m) 0 w.

(** [createLanguageModel] in the build: the selection of the source with
    console output.  The factories of the build are those of the source,
    line for line, and are shared. *)
Definition createLanguageModel (parseInt : string -> float)
    (env : gmap string string) (w : World)
    : Outcome TypeChatLanguageModel * World :=
  let w := w ++ [ConsoleLog [JString "Creating a language model..."]] in
  if truthy (env !! "OPENAI_API_KEY") then
    (apiKey ← coalesce (env !! "OPENAI_API_KEY")
                       (missingEnvironmentVariable "OPENAI_API_KEY");
     model ← coalesce (env !! "OPENAI_MODEL")
                      (missingEnvironmentVariable "OPENAI_MODEL");
     endPoint ← coalesce (env !! "OPENAI_ENDPOINT")
                         (Returned "https://api.openai.com/v1/chat/completions");
     org ← coalesce (env !! "OPENAI_ORGANIZATION") (Returned "");
     Returned (createOpenAILanguageModel apiKey model (Some endPoint) (Some org)),
     w)
  else if truthy (env !! "AZURE_OPENAI_API_KEY") then
    (apiKey ← coalesce (env !! "AZURE_OPENAI_API_KEY")
                       (missingEnvironmentVariable "AZURE_OPENAI_API_KEY");
     endPoint ← coalesce (env !! "AZURE_OPENAI_ENDPOINT")
                         (missingEnvironmentVariable "AZURE_OPENAI_ENDPOINT");
     Returned (createAzureOpenAILanguageModel apiKey endPoint),
     w)
  else if truthy (env !! "COHERE_API_KEY") then
    let w := w ++ [ConsoleLog [JString "Cohere API key detected..."]] in
    match coalesce (env !! "COHERE_API_KEY")
                   (missingEnvironmentVariable "COHERE_API_KEY") with
    | Thrown e => (Thrown e, w)
    | Returned apiKey =>
        let endPoint := default "https://api.cohere.ai/v1/generate"
                                (env !! "COHERE_ENDPOINT") in
        let maxTokens := default "500" (env !! "MAX_TOKENS") in
        (Returned (createCohereLanguageModel parseInt apiKey "command"
                                             (Some endPoint) (Some maxTokens)),
         w ++ [ConsoleLog [JObject {[ "apiKey" := JString apiKey;
                                      "endPoint" := JString endPoint;
                                      "maxTokens" := JString maxTokens ]}]])
    end
  else
    (missingEnvironmentVariable
       "OPENAI_API_KEY or AZURE_OPENAI_API_KEY or COHERE_API_KEY", w).

(** The request of every attempt of a call of the build, and what the
    build logs before each. *)
Definition requestOf (m : TypeChatLanguageModel) (prompt : string) : Request :=
  {| req_url := url m;
     req_config := config m;
     req_body := buildParams (defaultParams m) (isOpenAI m) prompt |}.

Definition logged (m : TypeChatLanguageModel) (prompt : string) : Event :=
  ConsoleLog [JObject {[ "params" :=
                buildParams (defaultParams m) (isOpenAI m) prompt ]}].

End Dist.

(** ** The trace of a call *)

(** The request of every attempt of a call, and what the call logs before
    each. *)
Definition requestOf (m : TypeChatLanguageModel) (prompt : string) : Request :=
  {| req_url := url m;
     req_config := config m;
     req_body := buildParams (defaultParams m) (isOpenAI m) prompt |}.

Definition logged (m : TypeChatLanguageModel) (prompt : string) : Event :=
  ConsoleLog [JString "[typechat]";
              JObject {[ "params" :=
                buildParams (defaultParams m) (isOpenAI m) prompt ]}].

(** The events of [j] attempts each followed by a retry, and of the attempt
    that leaves the loop. *)
Fixpoint retried (m : TypeChatLanguageModel) (prompt : string) (pauseMs : Z)
    (j : nat) : World :=
  match j with
  | O => []
  | S j => logged m prompt :: HttpPost (requestOf m prompt) :: Sleep pauseMs
           :: retried m prompt pauseMs j
  end.

Definition lastAttempt (m : TypeChatLanguageModel) (prompt : string) : World :=
  [logged m prompt; HttpPost (requestOf m prompt)].

(** What the call ends with on the response that leaves the loop. *)
Definition conclude (m : TypeChatLanguageModel) (result : Response)
    : Outcome Result :=
  if decide (status result = 200) then
    if isOpenAI m then extractOpenAI (data result)
    else extractGenerate (data result)
  else Returned (error (restApiError result)).

(** A response from which the OpenAI-style extraction reads the
    completion [c]: [choices] is an array whose first element is an object
    with a [message] object whose [content] is the string [c]. *)
Definition wellFormedOpenAI (payload : JsVal) (c : string) : Prop :=
  exists (fields first message : gmap string JsVal) (others : list JsVal),
    payload = JObject fields /\
    fields !! "choices" = Some (JArray (JObject first :: others)) /\
    first !! "message" = Some (JObject message) /\
    message !! "content" = Some (JString c).

(** ** Concrete clients and services *)

Definition openAIClient : TypeChatLanguageModel :=
  createOpenAILanguageModel "sk-test" "gpt-4" None None.

Definition cohereClient : TypeChatLanguageModel :=
  createCohereLanguageModel (fun _ => 500%float) "co-test" "command" None None.

Definition always (result : Response) : Transport := fun _ _ => result.

Definition serviceUnavailable : Response :=
  {| status := 503; statusText := "Service Unavailable"; data := JString "" |}.

Definition unauthorized : Response :=
  {| status := 401; statusText := "Unauthorized"; data := JNull |}.

Definition emptyPayload : Response :=
  {| status := 200; statusText := "OK"; data := JObject ∅ |}.

Definition chatCompletion (c : string) : Response :=
  {| status := 200; statusText := "OK";
     data := JObject {[ "choices" :=
       JArray [JObject {[ "message" :=
         JObject {[ "role" := JString "assistant";
                    "content" := JString c ]} ]}] ]} |}.

(** ** Environments *)

(** A credential variable is present in an environment when it is bound to
    a string that is not empty. *)
Definition present (env : gmap string string) (name : string) : Prop :=
  exists key : string, env !! name = Some key /\ key <> "".

Definition credentialKeys : list string :=
  ["OPENAI_API_KEY"; "AZURE_OPENAI_API_KEY"; "COHERE_API_KEY"].

Definition azureEnv : gmap string string :=
  {[ "OPENAI_API_KEY" := "";
     "AZURE_OPENAI_API_KEY" := "az-test";
     "AZURE_OPENAI_ENDPOINT" := "https://example.openai.azure.com/" ]}.

(** ** Further notions for the properties of the client *)

(** A response from which the generate-style extraction reads the
    completion [c]. *)
Definition wellFormedGenerate (payload : JsVal) (c : string) : Prop :=
  exists (fields first : gmap string JsVal) (others : list JsVal),
    payload = JObject fields /\
    fields !! "generations" = Some (JArray (JObject first :: others)) /\
    first !! "text" = Some (JString c).

(** The service as seen after [n] requests have been answered. *)
Definition shift (transport : Transport) (n : nat) : Transport :=
  fun k r => transport (n + k)%nat r.

(** The response to the last request of a trace. *)
Definition lastResponse (transport : Transport) (m : TypeChatLanguageModel)
    (prompt : string) (w : World) : Response :=
  transport (length (posts w) - 1)%nat (requestOf m prompt).

(** The variables [createLanguageModel] reads. *)
Definition openAIVariables : list string :=
  ["OPENAI_API_KEY"; "OPENAI_MODEL"; "OPENAI_ENDPOINT"; "OPENAI_ORGANIZATION"].

Definition selectionVariables : list string :=
  openAIVariables ++
  ["AZURE_OPENAI_API_KEY"; "AZURE_OPENAI_ENDPOINT";
   "COHERE_API_KEY"; "COHERE_ENDPOINT"; "MAX_TOKENS"].

(** ** Further concrete clients, services and environments *)

Definition noRetryClient : TypeChatLanguageModel :=
  {| retryMaxAttempts := Some 0;
     retryPauseMs := Some 250;
     url := "https://example.test/v1";
     config := {| headers := ∅ |};
     defaultParams := ∅;
     isOpenAI := true |}.

Definition internalError : Response :=
  {| status := 500; statusText := "Internal Server Error"; data := JString "" |}.

Definition badRequest : Response :=
  {| status := 400; statusText := "Bad Request"; data := JNull |}.

Definition generation (c : string) : Response :=
  {| status := 200; statusText := "OK";
     data := JObject {[ "generations" :=
       JArray [JObject {[ "id" := JString "g-1"; "text" := JString c ]}] ]} |}.

(** 500 on the first [n] requests, then [result]. *)
Definition failingFirst (n : nat) (result : Response) : Transport :=
  fun k _ => if (k <? n)%nat then internalError else result.

Definition openAIEnv : gmap string string :=
  {[ "OPENAI_API_KEY" := "sk-test";
     "OPENAI_MODEL" := "";
     "OPENAI_ENDPOINT" := "";
     "AZURE_OPENAI_API_KEY" := "az-test" ]}.

Definition openAIEnvAlone : gmap string string :=
  {[ "OPENAI_API_KEY" := "sk-test";
     "OPENAI_MODEL" := "";
     "OPENAI_ENDPOINT" := "" ]}.

Definition cohereEnv : gmap string string :=
  {[ "COHERE_API_KEY" := "co-test"; "MAX_TOKENS" := "64" ]}.

(** ** The retry bound as a JavaScript number *)

(** [retryMaxAttempts] is a number in the source, and the loop above takes
    it as an integer.  Here it is any number, as far as the comparison
    [retryCount >= retryMaxAttempts] tells numbers apart: not a number, an
    infinity, or a finite value, every finite double being the ratio of an
    integer and a positive integer. *)
Inductive JsNumber : Type :=
| NotANumber
| PlusInfinity
| MinusInfinity
| Finite (numerator : Z) (denominator : positive).

Definition ofInteger (z : Z) : JsNumber := Finite z 1.

(** [retryCount >= retryMaxAttempts], for a [retryCount] that holds an
    integer: false on [NaN] whatever [retryCount] is. *)
Definition reached (retryCount : Z) (maxAttempts : JsNumber) : bool :=
  match maxAttempts with
  | NotANumber => false
  | PlusInfinity => false
  | MinusInfinity => true
  | Finite n d => (n <=? retryCount * Z.pos d)%Z
  end.

(** [retryCount++] on a double that holds an integer: exact below 2^53,
    where adding 1 rounds back to 2^53. *)
Definition increment (retryCount : Z) : Z :=
  if (retryCount <? 2 ^ 53)%Z then retryCount + 1 else retryCount.

(** The [while (true)] loop of [complete] for such a bound.  Nothing bounds
    the number of rounds in general, so the loop is run for [fuel] rounds
    and gives nothing when they do not suffice. *)
Fixpoint completeLoopNumber (fuel : nat) (transport : Transport)
    (m : TypeChatLanguageModel) (prompt : string) (maxAttempts : JsNumber)
    (pauseMs : Z) (retryCount : Z) (w : World)
    : option (Outcome Result * World) :=
  match fuel with
  | O => None
  | S fuel =>
      let result := (attempt transport m prompt w).1 in
      let w1 := (attempt transport m prompt w).2 in
      if decide (status result = 200) then
        Some (if isOpenAI m then extractOpenAI (data result)
              else extractGenerate (data result), w1)
      else if negb (isTransientHttpError (status result))
              || reached retryCount maxAttempts then
        Some (Returned (error (restApiError result)), w1)
      else
        completeLoopNumber fuel transport m prompt maxAttempts pauseMs
                           (increment retryCount) (w1 ++ [Sleep pauseMs])
  end.

(** [complete] for a client whose [retryMaxAttempts] is undefined or holds
    the number given; the field of the record is not read. *)
Definition completeNumber (fuel : nat) (transport : Transport)
    (m : TypeChatLanguageModel) (maxAttempts : option JsNumber)
    (prompt : string) (w : World) : option (Outcome Result * World) :=
  completeLoopNumber fuel transport m prompt
                     (default (ofInteger 3) maxAttempts) (pauseMsOf m) 0 w.

(** The bounds that a [retryCount] never reaches: not a number, plus
    infinity, and the finite values above 2^53. *)
Definition outOfReach (maxAttempts : JsNumber) : Prop :=
  match maxAttempts with
  | NotANumber | PlusInfinity => True
  | MinusInfinity => False
  | Finite n d => 2 ^ 53 * Z.pos d < n
  end.

(** * Properties *)

(** ** The classifier *)

(** C7: the classifier answers true exactly on 429, 500, 502, 503 and 504. *)
Theorem isTransientHttpError_spec (code : Z) :
  isTransientHttpError code = true <->
  code = 429 \/ code = 500 \/ code = 502 \/ code = 503 \/ code = 504.
Proof.
  split.
  - unfold isTransientHttpError.
    repeat (match goal with
            | |- context [match ?x with _ => _ end] => destruct x
            end; try discriminate); intros _; lia.
  - intros [-> | [-> | [-> | [-> | ->]]]]; reflexivity.
Qed.

(** ** The run of the retry loop *)

(** The loop as the source reads: one attempt, then the three exits in
    order, then the retry. *)
Lemma completeLoop_step transport m prompt maxAttempts pauseMs retryCount w :
  completeLoop transport m prompt maxAttempts pauseMs retryCount w =
  let result := (attempt transport m prompt w).1 in
  let w1 := (attempt transport m prompt w).2 in
  if decide (status result = 200) then
    (if isOpenAI m then extractOpenAI (data result)
     else extractGenerate (data result), w1)
  else if negb (isTransientHttpError (status result))
          || bool_decide (retryCount >= maxAttempts) then
    (Returned (error (restApiError result)), w1)
  else
    completeLoop transport m prompt maxAttempts pauseMs (retryCount + 1)
                 (w1 ++ [Sleep pauseMs]).
Proof.
  simp completeLoop.
  destruct (attempt transport m prompt w) as [result w1]; simpl.
  destruct (Z.eq_dec (status result) 200) as [E|E]; simpl.
  - rewrite decide_True by done. reflexivity.
  - rewrite decide_False by done.
    destruct (isTransientHttpError (status result)); simpl; [|reflexivity].
    destruct (Z_ge_lt_dec retryCount maxAttempts) as [G|G]; simpl.
    + rewrite bool_decide_eq_true_2 by done. reflexivity.
    + rewrite bool_decide_eq_false_2 by lia. reflexivity.
Qed.

Lemma attempt_eq transport m prompt w :
  attempt transport m prompt w =
  (transport (length (posts w)) (requestOf m prompt),
   (w ++ lastAttempt m prompt)).
Proof.
  unfold attempt, post, lastAttempt, logged, requestOf, posts; simpl.
  rewrite omap_app, length_app, Nat.add_0_r, <- app_assoc. reflexivity.
Qed.

Lemma posts_app w1 w2 : posts (w1 ++ w2) = (posts w1 ++ posts w2).
Proof. apply omap_app. Qed.

Lemma sleeps_app w1 w2 : sleeps (w1 ++ w2) = (sleeps w1 ++ sleeps w2).
Proof. apply omap_app. Qed.

Lemma posts_retried m prompt pauseMs j :
  posts (retried m prompt pauseMs j) = replicate j (requestOf m prompt).
Proof. induction j as [|j IH]; simpl; [reflexivity|]. f_equal. exact IH. Qed.

Lemma sleeps_retried m prompt pauseMs j :
  sleeps (retried m prompt pauseMs j) = replicate j pauseMs.
Proof. induction j as [|j IH]; simpl; [reflexivity|]. f_equal. exact IH. Qed.

(** The loop leaves on the current attempt: no retry is made. *)
Ltac leave_loop :=
  exists 0%nat; rewrite Nat.add_0_r; unfold conclude;
  first [rewrite decide_True by done | rewrite decide_False by done];
  split; [lia|]; split; [intros; lia|]; split; [|reflexivity].

(** The run of the loop from [retryCount]: it retries [j] times, on
    transient statuses only and never more often than [maxAttempts] allows,
    and leaves on the response to attempt [j]. *)
Lemma completeLoop_run transport m prompt maxAttempts pauseMs :
  forall (n : nat) (retryCount : Z) (w : World),
    Z.to_nat (maxAttempts - retryCount) = n ->
    exists j : nat,
      Z.of_nat j <= Z.max 0 (maxAttempts - retryCount) /\
      (forall i : nat, (i < j)%nat ->
         status (transport (length (posts w) + i)%nat (requestOf m prompt)) <> 200 /\
         isTransientHttpError
           (status (transport (length (posts w) + i)%nat (requestOf m prompt))) = true) /\
      (status (transport (length (posts w) + j)%nat (requestOf m prompt)) = 200 \/
       isTransientHttpError
         (status (transport (length (posts w) + j)%nat (requestOf m prompt))) = false \/
       maxAttempts <= retryCount + Z.of_nat j) /\
      completeLoop transport m prompt maxAttempts pauseMs retryCount w =
      (conclude m (transport (length (posts w) + j)%nat (requestOf m prompt)),
       (w ++ retried m prompt pauseMs j ++ lastAttempt m prompt)).
Proof.
  induction n as [|n IH]; intros retryCount w Hn;
    rewrite completeLoop_step, attempt_eq; simpl;
    set (result := transport (length (posts w)) (requestOf m prompt)).
  all: destruct (decide (status result = 200)) as [E200|E200];
    [leave_loop; by left|].
  all: destruct (isTransientHttpError (status result)) eqn:Et; simpl;
    [|leave_loop; by right; left].
  all: destruct (bool_decide (retryCount >= maxAttempts)) eqn:Eg;
    [apply bool_decide_eq_true_1 in Eg; leave_loop; right; right; lia
    |apply bool_decide_eq_false_1 in Eg].
  - lia.
  - destruct (IH (retryCount + 1) ((w ++ lastAttempt m prompt) ++ [Sleep pauseMs]))
      as (j & Hj & Htr & Hexit & Hrun); [lia|].
    assert (Hlen : length (posts ((w ++ lastAttempt m prompt) ++ [Sleep pauseMs]))
                   = S (length (posts w))).
    { rewrite !posts_app, !length_app. simpl. lia. }
    rewrite Hlen in *.
    exists (S j).
    replace (length (posts w) + S j)%nat with (S (length (posts w)) + j)%nat by lia.
    split; [lia|]. split; [|split; [|]].
    + intros [|i] Hi.
      * rewrite Nat.add_0_r. fold result. by rewrite Et.
      * replace (length (posts w) + S i)%nat with (S (length (posts w)) + i)%nat by lia.
        apply Htr. lia.
    + destruct Hexit as [H|[H|H]]; [by left|by right; left|right; right; lia].
    + rewrite Hrun. f_equal. unfold lastAttempt. simpl.
      rewrite <- !app_assoc. reflexivity.
Qed.

Lemma complete_run transport m prompt :
  exists j : nat,
    Z.of_nat j <= Z.max 0 (maxAttemptsOf m) /\
    (forall i : nat, (i < j)%nat ->
       status (transport i (requestOf m prompt)) <> 200 /\
       isTransientHttpError (status (transport i (requestOf m prompt))) = true) /\
    (status (transport j (requestOf m prompt)) = 200 \/
     isTransientHttpError (status (transport j (requestOf m prompt))) = false \/
     maxAttemptsOf m <= Z.of_nat j) /\
    complete transport m prompt [] =
    (conclude m (transport j (requestOf m prompt)),
     retried m prompt (pauseMsOf m) j ++ lastAttempt m prompt).
Proof.
  destruct (completeLoop_run transport m prompt (maxAttemptsOf m) (pauseMsOf m)
              _ 0 [] eq_refl) as (j & Hj & Htr & Hexit & Hrun).
  exists j. simpl in *. rewrite Z.sub_0_r in Hj.
  split; [exact Hj|]. split; [exact Htr|]. split; [|exact Hrun].
  destruct Hexit as [H|[H|H]]; auto.
Qed.

Lemma length_posts_run m prompt pauseMs j :
  length (posts (retried m prompt pauseMs j ++ lastAttempt m prompt)) = S j.
Proof.
  rewrite posts_app, posts_retried, length_app, length_replicate. simpl. lia.
Qed.

Lemma sleeps_run m prompt pauseMs j :
  sleeps (retried m prompt pauseMs j ++ lastAttempt m prompt) = replicate j pauseMs.
Proof. rewrite sleeps_app, sleeps_retried. simpl. apply app_nil_r. Qed.



(** The companion run: 500 on the first [retryMaxAttempts] attempts and 200
    on the next one.  The call ends on that response, after
    [retryMaxAttempts + 1] requests and [retryMaxAttempts] sleeps. *)
Lemma complete_recovers (transport : Transport) (m : TypeChatLanguageModel)
    (prompt : string) :
  0 <= maxAttemptsOf m ->
  (forall k r, Z.of_nat k < maxAttemptsOf m -> status (transport k r) = 500) ->
  (forall r, status (transport (Z.to_nat (maxAttemptsOf m)) r) = 200) ->
  exists w : World,
    complete transport m prompt [] =
      ((if isOpenAI m
        then extractOpenAI
               (data (transport (Z.to_nat (maxAttemptsOf m)) (requestOf m prompt)))
        else extractGenerate
               (data (transport (Z.to_nat (maxAttemptsOf m)) (requestOf m prompt)))),
       w) /\
    Z.of_nat (length (posts w)) = maxAttemptsOf m + 1 /\
    sleeps w = replicate (Z.to_nat (maxAttemptsOf m)) (pauseMsOf m).
Proof.
  intros Hmax H500 H200.
  destruct (complete_run transport m prompt) as (j & Hj & Htr & Hexit & Hrun).
  assert (Ej : j = Z.to_nat (maxAttemptsOf m)).
  { destruct (Z.lt_ge_cases (Z.of_nat j) (maxAttemptsOf m)) as [Hlt|Hge]; [|lia].
    rewrite (H500 j _ Hlt) in Hexit.
    destruct Hexit as [H|[H|H]]; [discriminate H|discriminate H|lia]. }
  subst j. eexists. split; [|split].
  - rewrite Hrun. unfold conclude. rewrite decide_True by apply H200. reflexivity.
  - rewrite length_posts_run. lia.
  - apply sleeps_run.
Qed.

(** C3: on a status that is neither 200 nor transient, [complete] returns
    an error result after one request and no sleep; the message is made of
    the status code and the status text. *)
Theorem complete_permanent_error (transport : Transport)
    (m : TypeChatLanguageModel) (prompt : string) :
  status (transport 0%nat (requestOf m prompt)) <> 200 ->
  isTransientHttpError (status (transport 0%nat (requestOf m prompt))) = false ->
  exists w : World,
    complete transport m prompt [] =
      (Returned (error ("REST API error "
                        +:+ pretty (status (transport 0%nat (requestOf m prompt)))
                        +:+ ": "
                        +:+ statusText (transport 0%nat (requestOf m prompt)))), w) /\
    posts w = [requestOf m prompt] /\
    sleeps w = [].
Proof.
  intros H200 Htr.
  exists (lastAttempt m prompt). split; [|split; reflexivity].
  unfold complete. rewrite completeLoop_step, attempt_eq. simpl.
  rewrite decide_False by exact H200. rewrite Htr. reflexivity.
Qed.

Lemma complete_permanent_error_witness :
  status (always unauthorized 0%nat (requestOf openAIClient "hello")) <> 200 /\
  isTransientHttpError
    (status (always unauthorized 0%nat (requestOf openAIClient "hello"))) = false /\
  exists w : World,
    complete (always unauthorized) openAIClient "hello" [] =
      (Returned (error "REST API error 401: Unauthorized"), w) /\
    posts w = [requestOf openAIClient "hello"] /\
    sleeps w = [].
Proof.
  split; [vm_compute; discriminate|]. split; [reflexivity|].
  apply (complete_permanent_error (always unauthorized) openAIClient "hello");
    [vm_compute; discriminate|reflexivity].
Defined.







(** ** The extraction of the completion *)

Lemma getMember_defined v name r :
  getMember v name = Returned r -> nullish v = false.
Proof. destruct v; simpl; intros H; try reflexivity; discriminate H. Qed.

Lemma extractOpenAI_wellFormed (payload : JsVal) (c : string) :
  wellFormedOpenAI payload c ->
  extractOpenAI payload = Returned (success (JString c)).
Proof.
  intros (fields & first & message & others & -> & Hc & Hm & Hcontent).
  unfold extractOpenAI; simpl. rewrite Hc; simpl. rewrite Hm; simpl.
  rewrite Hcontent; reflexivity.
Qed.

(** C2: the extraction reads [choices[0].message.content].  Where the
    message of [choices[0]], or the content of that message, is undefined
    or null, it gives a success with the empty string; a content that is
    there is the completion; and where the payload, its [choices] or
    [choices[0]] is undefined or null, it throws a [TypeError]. *)
Theorem extractOpenAI_fallback (payload : JsVal) :
  (forall choices first message : JsVal,
     getMember payload "choices" = Returned choices ->
     getElement choices 0 = Returned first ->
     getMember first "message" = Returned message ->
     (nullish message = true \/
      exists content : JsVal,
        getMember message "content" = Returned content /\
        nullish content = true) ->
     extractOpenAI payload = Returned (success (JString ""))) /\
  (forall choices first message content : JsVal,
     getMember payload "choices" = Returned choices ->
     getElement choices 0 = Returned first ->
     getMember first "message" = Returned message ->
     getMember message "content" = Returned content ->
     nullish content = false ->
     extractOpenAI payload = Returned (success content)) /\
  ((nullish payload = true \/
    exists choices : JsVal,
      getMember payload "choices" = Returned choices /\
      (nullish choices = true \/
       exists first : JsVal,
         getElement choices 0 = Returned first /\ nullish first = true)) ->
   exists reading : string, extractOpenAI payload = Thrown (TypeError reading)).
Proof.
  split; [|split].
  - intros choices first message Hc Hf Hm Habsent.
    unfold extractOpenAI. rewrite Hc; simpl. rewrite Hf; simpl. rewrite Hm; simpl.
    destruct Habsent as [Hnull|(content & Hcontent & Hnull)].
    + rewrite Hnull; simpl. reflexivity.
    + rewrite (getMember_defined _ _ _ Hcontent), Hcontent; simpl.
      rewrite Hnull. reflexivity.
  - intros choices first message content Hc Hf Hm Hcontent Hnull.
    unfold extractOpenAI. rewrite Hc; simpl. rewrite Hf; simpl. rewrite Hm; simpl.
    rewrite (getMember_defined _ _ _ Hcontent), Hcontent; simpl.
    rewrite Hnull. reflexivity.
  - intros [Hp|(choices & Hc & [Hn|(first & Hf & Hn)])]; unfold extractOpenAI.
    + destruct payload; try discriminate Hp; by eexists.
    + rewrite Hc; simpl. destruct choices; try discriminate Hn; by eexists.
    + rewrite Hc; simpl. rewrite Hf; simpl.
      destruct first; try discriminate Hn; by eexists.
Qed.

Lemma extractOpenAI_fallback_witness :
  extractOpenAI (JObject {[ "choices" := JArray [JObject ∅] ]})
    = Returned (success (JString "")) /\
  extractOpenAI (JObject {[ "choices" := JArray [] ]})
    = Thrown (TypeError "message").
Proof.
  split.
  - destruct (extractOpenAI_fallback (JObject {[ "choices" := JArray [JObject ∅] ]}))
      as [H _].
    apply (H (JArray [JObject ∅]) (JObject ∅) JUndefined);
      [reflexivity|reflexivity|reflexivity|left; reflexivity].
  - reflexivity.
Defined.

(** C2, as stated, fails: a payload of status 200 without [choices] makes
    the call of an OpenAI-style client throw, not succeed with the empty
    string. *)
Lemma complete_openAI_throws_without_choices :
  (complete (always emptyPayload) openAIClient "hello" []).1
    = Thrown (TypeError "0") /\
  extractOpenAI (data emptyPayload) <> Returned (success (JString "")).
Proof.
  split; [vm_compute; reflexivity|]. vm_compute. discriminate.
Qed.

(** C6: the request of an OpenAI-style client is built from the prompt,
    and from a well-formed response to it whose
    [choices[0].message.content] is [c] the call returns exactly [c]. *)
Theorem openAI_round_trip (transport : Transport) (m : TypeChatLanguageModel)
    (prompt c : string) :
  isOpenAI m = true ->
  status (transport 0%nat (requestOf m prompt)) = 200 ->
  wellFormedOpenAI (data (transport 0%nat (requestOf m prompt))) c ->
  req_body (requestOf m prompt) = buildParams (defaultParams m) true prompt /\
  extractOpenAI (data (transport 0%nat (requestOf m prompt)))
    = Returned (success (JString c)) /\
  exists w : World,
    complete transport m prompt [] = (Returned (success (JString c)), w) /\
    posts w = [requestOf m prompt] /\
    sleeps w = [].
Proof.
  intros Hopen H200 Hwf.
  pose proof (extractOpenAI_wellFormed _ _ Hwf) as Hex.
  split; [simpl; by rewrite Hopen|]. split; [exact Hex|].
  exists (lastAttempt m prompt). split; [|split; reflexivity].
  unfold complete. rewrite completeLoop_step, attempt_eq. simpl.
  rewrite decide_True by exact H200. rewrite Hopen, Hex. reflexivity.
Qed.

Lemma openAI_round_trip_witness :
  isOpenAI openAIClient = true /\
  status (always (chatCompletion "Hi there") 0%nat
            (requestOf openAIClient "hello")) = 200 /\
  wellFormedOpenAI
    (data (always (chatCompletion "Hi there") 0%nat
             (requestOf openAIClient "hello"))) "Hi there" /\
  exists w : World,
    complete (always (chatCompletion "Hi there")) openAIClient "hello" []
      = (Returned (success (JString "Hi there")), w) /\
    posts w = [requestOf openAIClient "hello"] /\
    sleeps w = [].
Proof.
  assert (Hwf : wellFormedOpenAI (data (chatCompletion "Hi there")) "Hi there").
  { eexists _, _, _, _. split; [reflexivity|].
    split; [reflexivity|]. split; reflexivity. }
  split; [reflexivity|]. split; [reflexivity|]. split; [exact Hwf|].
  apply (openAI_round_trip (always (chatCompletion "Hi there")) openAIClient
           "hello" "Hi there" eq_refl eq_refl Hwf).
Defined.

(** ** The request body *)

Lemma complete_posts transport m prompt :
  exists j : nat,
    posts (complete transport m prompt []).2 = replicate (S j) (requestOf m prompt).
Proof.
  destruct (complete_run transport m prompt) as (j & _ & _ & _ & Hrun).
  exists j. rewrite Hrun. simpl.
  rewrite posts_app, posts_retried. simpl.
  change (requestOf m prompt :: replicate j (requestOf m prompt))
    with (replicate (S j) (requestOf m prompt)).
  rewrite replicate_S_end. reflexivity.
Qed.

(** C5: the body of the request of every attempt is [defaultParams]
    extended, for an OpenAI-style client, with [messages], [n] and the
    temperature 0.2, and, for a generate-style client, with [prompt], [k],
    [stop_sequences], [return_likelihoods] and the temperature 0.2. *)
Theorem buildParams_extends (params : gmap string JsVal) (prompt : string) :
  buildParams params true prompt =
    JObject (<["messages" :=
                 JArray [JObject {[ "role" := JString "user";
                                    "content" := JString prompt ]}]]>
             (<["n" := JNumber 1]>
              (<["temperature" := JNumber 0.2]> params))) /\
  buildParams params false prompt =
    JObject (<["prompt" := JString prompt]>
             (<["k" := JNumber 0]>
              (<["stop_sequences" := JArray []]>
               (<["return_likelihoods" := JString "NONE"]>
                (<["temperature" := JNumber 0.2]> params))))) /\
  (forall (transport : Transport) (m : TypeChatLanguageModel),
     Forall (fun r => req_body r
                      = buildParams (defaultParams m) (isOpenAI m) prompt)
            (posts (complete transport m prompt []).2)).
Proof.
  split; [|split].
  - unfold buildParams. f_equal. apply map_eq. intros k.
    repeat (rewrite lookup_insert || rewrite lookup_union
            || rewrite lookup_singleton || rewrite lookup_empty).
    repeat case_decide; subst; try congruence; simpl;
      try reflexivity; by destruct (_ !! _).
  - unfold buildParams. f_equal. apply map_eq. intros k.
    repeat (rewrite lookup_insert || rewrite lookup_union
            || rewrite lookup_singleton || rewrite lookup_empty).
    repeat case_decide; subst; try congruence; simpl;
      try reflexivity; by destruct (_ !! _).
  - intros transport m.
    destruct (complete_posts transport m prompt) as [j Hj].
    rewrite Hj. apply Forall_replicate. reflexivity.
Qed.

(** ** The compiled build against the source *)

Lemma float_0_is_not_0_2 : (0 : float) <> 0.2%float.
Proof.
  intros H. apply (f_equal (PrimFloat.eqb 0)) in H.
  vm_compute in H. discriminate H.
Qed.

(** C9: the request body of the compiled build and the one of the source
    have the same fields but for [temperature], which is 0 in the build and
    0.2 in the source; the two bodies are never equal. *)
Theorem dist_buildParams_temperature (params : gmap string JsVal)
    (isOpenAI : bool) (prompt : string) :
  exists built written : gmap string JsVal,
    Dist.buildParams params isOpenAI prompt = JObject built /\
    buildParams params isOpenAI prompt = JObject written /\
    delete "temperature" built = delete "temperature" written /\
    built !! "temperature" = Some (JNumber 0) /\
    written !! "temperature" = Some (JNumber 0.2) /\
    Dist.buildParams params isOpenAI prompt <> buildParams params isOpenAI prompt.
Proof.
  eexists _, _. split; [reflexivity|]. split; [reflexivity|].
  split; [by rewrite !delete_insert_eq|].
  split; [apply lookup_insert_eq|]. split; [apply lookup_insert_eq|].
  unfold Dist.buildParams, buildParams. intros H.
  apply (f_equal (fun body => match body with
                              | JObject fields => fields !! "temperature"
                              | _ => None
                              end)) in H.
  rewrite !lookup_insert_eq in H.
  apply float_0_is_not_0_2. congruence.
Qed.

(** ** The selection of a provider *)

Lemma truthy_present env name : truthy (env !! name) = true <-> present env name.
Proof.
  unfold present. split.
  - destruct (env !! name) as [[|a s]|]; simpl; try discriminate.
    intros _. by eexists.
  - intros (key & -> & Hkey). by destruct key.
Qed.

Lemma truthy_absent env name : truthy (env !! name) = false <-> ~ present env name.
Proof.
  rewrite <- truthy_present. by destruct (truthy (env !! name)).
Qed.

(** C8: the selection takes the first credential present among
    OPENAI_API_KEY, AZURE_OPENAI_API_KEY and COHERE_API_KEY and returns what
    that provider's factory makes; it throws when OPENAI_MODEL (for OpenAI)
    or AZURE_OPENAI_ENDPOINT (for Azure) is undefined, and when no
    credential is present. *)
Theorem createLanguageModel_selects (parseInt : string -> float)
    (env : gmap string string) :
  (present env "OPENAI_API_KEY" ->
   (forall key model : string,
      env !! "OPENAI_API_KEY" = Some key ->
      env !! "OPENAI_MODEL" = Some model ->
      createLanguageModel parseInt env =
      Returned (createOpenAILanguageModel key model
                  (Some (default "https://api.openai.com/v1/chat/completions"
                                 (env !! "OPENAI_ENDPOINT")))
                  (Some (default "" (env !! "OPENAI_ORGANIZATION"))))) /\
   (env !! "OPENAI_MODEL" = None ->
      createLanguageModel parseInt env =
      Thrown (JsError "Missing environment variable: OPENAI_MODEL"))) /\
  (~ present env "OPENAI_API_KEY" -> present env "AZURE_OPENAI_API_KEY" ->
   (forall key endPoint : string,
      env !! "AZURE_OPENAI_API_KEY" = Some key ->
      env !! "AZURE_OPENAI_ENDPOINT" = Some endPoint ->
      createLanguageModel parseInt env =
      Returned (createAzureOpenAILanguageModel key endPoint)) /\
   (env !! "AZURE_OPENAI_ENDPOINT" = None ->
      createLanguageModel parseInt env =
      Thrown (JsError "Missing environment variable: AZURE_OPENAI_ENDPOINT"))) /\
  (~ present env "OPENAI_API_KEY" -> ~ present env "AZURE_OPENAI_API_KEY" ->
   present env "COHERE_API_KEY" ->
   forall key : string,
     env !! "COHERE_API_KEY" = Some key ->
     createLanguageModel parseInt env =
     Returned (createCohereLanguageModel parseInt key "command"
                 (Some (default "https://api.cohere.ai/v1/generate"
                                (env !! "COHERE_ENDPOINT")))
                 (Some (default "500" (env !! "MAX_TOKENS"))))) /\
  (~ present env "OPENAI_API_KEY" -> ~ present env "AZURE_OPENAI_API_KEY" ->
   ~ present env "COHERE_API_KEY" ->
   createLanguageModel parseInt env =
   Thrown (JsError ("Missing environment variable: "
                    +:+ "OPENAI_API_KEY or AZURE_OPENAI_API_KEY or COHERE_API_KEY"))).
Proof.
  rewrite <- !truthy_absent, <- !truthy_present. unfold createLanguageModel.
  split; [|split; [|split]].
  - intros Ho. rewrite Ho. split.
    + intros key model -> ->; simpl.
      by destruct (env !! "OPENAI_ENDPOINT"), (env !! "OPENAI_ORGANIZATION").
    + intros ->. by destruct (env !! "OPENAI_API_KEY").
  - intros -> Ha. rewrite Ha. split.
    + by intros key endPoint -> ->.
    + intros ->. by destruct (env !! "AZURE_OPENAI_API_KEY").
  - intros -> -> -> key ->; simpl.
    by destruct (env !! "COHERE_ENDPOINT"), (env !! "MAX_TOKENS").
  - intros -> -> ->. reflexivity.
Qed.

Lemma createLanguageModel_selects_witness :
  ~ present azureEnv "OPENAI_API_KEY" /\
  present azureEnv "AZURE_OPENAI_API_KEY" /\
  createLanguageModel (fun _ => 500%float) azureEnv =
  Returned (createAzureOpenAILanguageModel "az-test"
              "https://example.openai.azure.com/").
Proof.
  assert (Ho : ~ present azureEnv "OPENAI_API_KEY").
  { apply truthy_absent. reflexivity. }
  assert (Ha : present azureEnv "AZURE_OPENAI_API_KEY").
  { apply truthy_present. reflexivity. }
  split; [exact Ho|]. split; [exact Ha|].
  destruct (createLanguageModel_selects (fun _ => 500%float) azureEnv)
    as (_ & Hazure & _).
  destruct (Hazure Ho Ha) as [Hsel _].
  apply Hsel; reflexivity.
Defined.

Lemma empty_not_present env name : env !! name = Some "" -> ~ present env name.
Proof. intros He (key & Hk & Hne). rewrite He in Hk. congruence. Qed.

(** C10: a credential variable bound to the empty string counts as absent:
    the selection is the one of the environment without that variable, so
    an empty OPENAI_API_KEY leads to the Azure check; and when each of the
    three credentials is empty or undefined, the selection throws the fault
    of the missing variable. *)
Theorem createLanguageModel_empty_credential (parseInt : string -> float)
    (env : gmap string string) :
  (forall name : string,
     name ∈ credentialKeys -> env !! name = Some "" ->
     ~ present env name /\
     createLanguageModel parseInt env
     = createLanguageModel parseInt (delete name env)) /\
  (env !! "OPENAI_API_KEY" = Some "" ->
   forall key endPoint : string,
     env !! "AZURE_OPENAI_API_KEY" = Some key -> key <> "" ->
     env !! "AZURE_OPENAI_ENDPOINT" = Some endPoint ->
     createLanguageModel parseInt env
     = Returned (createAzureOpenAILanguageModel key endPoint)) /\
  ((forall name : string,
      name ∈ credentialKeys -> env !! name = None \/ env !! name = Some "") ->
   createLanguageModel parseInt env =
   Thrown (JsError ("Missing environment variable: "
                    +:+ "OPENAI_API_KEY or AZURE_OPENAI_API_KEY or COHERE_API_KEY"))).
Proof.
  split; [|split].
  - intros name Hin He. split; [by apply empty_not_present|].
    unfold credentialKeys in Hin. set_unfold in Hin.
    unfold createLanguageModel.
    destruct Hin as [->|[->|[->|[]]]];
      rewrite lookup_delete_eq, !lookup_delete_ne by done;
      rewrite He; reflexivity.
  - intros He key endPoint Hk Hne Hend.
    unfold createLanguageModel. rewrite He, Hk, Hend.
    destruct key; [done|reflexivity].
  - intros Hall. unfold createLanguageModel.
    assert (Ht : forall name, name ∈ credentialKeys -> truthy (env !! name) = false).
    { intros name Hin. by destruct (Hall name Hin) as [->| ->]. }
    rewrite !Ht by (unfold credentialKeys; set_solver). reflexivity.
Qed.

Lemma createLanguageModel_empty_credential_witness :
  "OPENAI_API_KEY" ∈ credentialKeys /\
  azureEnv !! "OPENAI_API_KEY" = Some "" /\
  ~ present azureEnv "OPENAI_API_KEY" /\
  createLanguageModel (fun _ => 500%float) azureEnv
  = createLanguageModel (fun _ => 500%float) (delete "OPENAI_API_KEY" azureEnv) /\
  createLanguageModel (fun _ => 500%float) azureEnv
  = Returned (createAzureOpenAILanguageModel "az-test"
                "https://example.openai.azure.com/").
Proof.
  assert (Hin : "OPENAI_API_KEY" ∈ credentialKeys) by (apply list_elem_of_here).
  assert (He : azureEnv !! "OPENAI_API_KEY" = Some "") by reflexivity.
  destruct (createLanguageModel_empty_credential (fun _ => 500%float) azureEnv)
    as (Hdel & Hazure & _).
  destruct (Hdel "OPENAI_API_KEY" Hin He) as [Habsent Hsame].
  split; [exact Hin|]. split; [exact He|]. split; [exact Habsent|].
  split; [exact Hsame|].
  apply (Hazure He "az-test" "https://example.openai.azure.com/");
    [reflexivity|discriminate|reflexivity].
Defined.

(** * Further properties of the code *)

(** ** What a call returns, and on which response *)

Lemma extractOpenAI_not_error payload message :
  extractOpenAI payload <> Returned (error message).
Proof.
  unfold extractOpenAI.
  destruct (getMember payload "choices") as [choices|]; simpl; [|discriminate].
  destruct (getElement choices 0) as [first|]; simpl; [|discriminate].
  destruct (getMember first "message") as [msg|]; simpl; [|discriminate].
  destruct (nullish msg); simpl; [discriminate|].
  destruct (getMember msg "content"); simpl; discriminate.
Qed.

Lemma extractGenerate_not_error payload message :
  extractGenerate payload <> Returned (error message).
Proof.
  unfold extractGenerate.
  destruct (getMember payload "generations") as [generations|]; simpl; [|discriminate].
  destruct (getElement generations 0) as [first|]; simpl; [|discriminate].
  destruct (getMember first "text"); simpl; discriminate.
Qed.

(** A call returns a success, or throws, only on a response of status 200;
    it returns an error only on a response of another status, and then
    that response is not transient or the retries are used up, and the
    message is made of its status and status text. *)
Theorem complete_result_by_last_status (transport : Transport)
    (m : TypeChatLanguageModel) (prompt : string) :
  match (complete transport m prompt []).1 with
  | Returned (success _) | Thrown _ =>
      status (lastResponse transport m prompt (complete transport m prompt []).2)
      = 200
  | Returned (error message) =>
      status (lastResponse transport m prompt (complete transport m prompt []).2)
      <> 200 /\
      message
      = restApiError
          (lastResponse transport m prompt (complete transport m prompt []).2) /\
      (isTransientHttpError
         (status (lastResponse transport m prompt
                    (complete transport m prompt []).2)) = false \/
       maxAttemptsOf m
       <= Z.of_nat (length (posts (complete transport m prompt []).2)) - 1)
  end.
Proof.
  destruct (complete_run transport m prompt) as (j & _ & _ & Hexit & Hrun).
  rewrite Hrun. unfold lastResponse. simpl. rewrite length_posts_run.
  replace (S j - 1)%nat with j by lia.
  unfold conclude.
  destruct (decide (status (transport j (requestOf m prompt)) = 200)) as [E|E].
  - destruct (isOpenAI m).
    + destruct (extractOpenAI _) as [[d|msg]|e] eqn:Eout; try exact E.
      by apply extractOpenAI_not_error in Eout.
    + destruct (extractGenerate _) as [[d|msg]|e] eqn:Eout; try exact E.
      by apply extractGenerate_not_error in Eout.
  - split; [exact E|]. split; [reflexivity|].
    destruct Hexit as [H|[H|H]]; [done|by left|right; lia].
Qed.

(** ** The shape of the trace *)

(** Whatever the service answers, every request of a call is the same
    request, the call sleeps once between two consecutive requests, always
    for [retryPauseMs], and the last thing it does is a request: the trace
    is a number of rounds of a log, a request and a sleep, in that order,
    followed by a log and a request. *)
Theorem complete_trace_regular (transport : Transport)
    (m : TypeChatLanguageModel) (prompt : string) :
  posts (complete transport m prompt []).2
  = replicate (length (posts (complete transport m prompt []).2))
              (requestOf m prompt) /\
  (1 <= length (posts (complete transport m prompt []).2))%nat /\
  sleeps (complete transport m prompt []).2
  = replicate (length (posts (complete transport m prompt []).2) - 1)
              (pauseMsOf m) /\
  last (complete transport m prompt []).2 = Some (HttpPost (requestOf m prompt)) /\
  (complete transport m prompt []).2
  = retried m prompt (pauseMsOf m)
            (length (posts (complete transport m prompt []).2) - 1)
    ++ lastAttempt m prompt.
Proof.
  destruct (complete_run transport m prompt) as (j & _ & _ & _ & Hrun).
  rewrite Hrun. simpl. rewrite length_posts_run, sleeps_run.
  replace (S j - 1)%nat with j by lia.
  split; [|split; [lia|split; [|split; [|reflexivity]]]].
  - rewrite posts_app, posts_retried. simpl.
    change (requestOf m prompt :: replicate j (requestOf m prompt))
      with (replicate (S j) (requestOf m prompt)).
    by rewrite replicate_S_end.
  - reflexivity.
  - unfold lastAttempt.
    change [logged m prompt; HttpPost (requestOf m prompt)]
      with ([logged m prompt] ++ [HttpPost (requestOf m prompt)]).
    rewrite !app_assoc. apply last_snoc.
Qed.

(** Every response but the last one of a call had a transient status: the
    call never retries on another status. *)
Theorem complete_retries_only_transient (transport : Transport)
    (m : TypeChatLanguageModel) (prompt : string) :
  Forall (fun k => isTransientHttpError
                     (status (transport k (requestOf m prompt))) = true)
         (seq 0 (length (posts (complete transport m prompt []).2) - 1)).
Proof.
  destruct (complete_run transport m prompt) as (j & _ & Htr & _ & Hrun).
  rewrite Hrun. simpl. rewrite length_posts_run.
  replace (S j - 1)%nat with j by lia.
  apply Forall_seq. intros k Hk. apply Htr. lia.
Qed.

(** ** Which responses a call depends on *)




Lemma completeLoop_frame transport m prompt maxAttempts pauseMs (before : World) :
  forall (n : nat) (retryCount : Z) (w : World),
    Z.to_nat (maxAttempts - retryCount) = n ->
    completeLoop transport m prompt maxAttempts pauseMs retryCount (before ++ w) =
    ((completeLoop (shift transport (length (posts before))) m prompt
                   maxAttempts pauseMs retryCount w).1,
     before ++ (completeLoop (shift transport (length (posts before))) m prompt
                             maxAttempts pauseMs retryCount w).2).
Proof.
  induction n as [|n IH]; intros retryCount w Hn;
    rewrite !completeLoop_step, !attempt_eq; simpl;
    rewrite posts_app, length_app;
    set (result := transport (length (posts before) + length (posts w))%nat
                             (requestOf m prompt));
    change (shift transport (length (posts before)) (length (posts w))
                  (requestOf m prompt)) with result.
  all: destruct (decide (status result = 200));
    [simpl; by rewrite app_assoc|].
  all: destruct (isTransientHttpError (status result)); simpl;
    [|by rewrite app_assoc].
  all: destruct (bool_decide (retryCount >= maxAttempts)) eqn:Eg;
    [simpl; by rewrite app_assoc|].
  all: apply bool_decide_eq_false_1 in Eg.
  - lia.
  - replace (((before ++ w) ++ lastAttempt m prompt) ++ [Sleep pauseMs])
      with (before ++ ((w ++ lastAttempt m prompt) ++ [Sleep pauseMs]))
      by (by rewrite !app_assoc).
    apply IH. lia.
Qed.

(** A call keeps no state of its own between calls: started after other
    calls, it returns what a first call returns from the responses that
    are left, and it only appends its events to the trace. *)
Theorem complete_frame (transport : Transport) (m : TypeChatLanguageModel)
    (prompt : string) (before : World) :
  complete transport m prompt before =
  ((complete (shift transport (length (posts before))) m prompt []).1,
   before ++ (complete (shift transport (length (posts before))) m prompt []).2).
Proof.
  unfold complete.
  rewrite <- (app_nil_r before) at 1.
  apply (completeLoop_frame _ _ _ _ _ _ _ _ _ eq_refl).
Qed.

(** ** The bounds of the retry count *)

(** With [retryMaxAttempts] zero or negative a call makes one request and
    never sleeps, whatever the status of the response. *)
Theorem complete_without_retries (transport : Transport)
    (m : TypeChatLanguageModel) (prompt : string) :
  maxAttemptsOf m <= 0 ->
  complete transport m prompt [] =
  (conclude m (transport 0%nat (requestOf m prompt)), lastAttempt m prompt) /\
  posts (complete transport m prompt []).2 = [requestOf m prompt] /\
  sleeps (complete transport m prompt []).2 = [].
Proof.
  intros Hmax.
  destruct (complete_run transport m prompt) as (j & Hj & _ & _ & Hrun).
  assert (j = 0%nat) as -> by lia.
  rewrite Hrun. split; [reflexivity|]. split; reflexivity.
Qed.

Lemma complete_without_retries_witness :
  maxAttemptsOf noRetryClient <= 0 /\
  complete (always serviceUnavailable) noRetryClient "hello" [] =
  (Returned (error "REST API error 503: Service Unavailable"),
   lastAttempt noRetryClient "hello") /\
  posts (complete (always serviceUnavailable) noRetryClient "hello" []).2
  = [requestOf noRetryClient "hello"] /\
  sleeps (complete (always serviceUnavailable) noRetryClient "hello" []).2 = [].
Proof.
  split; [vm_compute; discriminate|].
  apply (complete_without_retries (always serviceUnavailable) noRetryClient "hello").
  vm_compute; discriminate.
Defined.

Lemma complete_recovers_witness :
  0 <= maxAttemptsOf openAIClient /\
  exists w : World,
    complete (failingFirst 3 (chatCompletion "ok")) openAIClient "hello" [] =
      (Returned (success (JString "ok")), w) /\
    Z.of_nat (length (posts w)) = maxAttemptsOf openAIClient + 1 /\
    sleeps w = replicate (Z.to_nat (maxAttemptsOf openAIClient))
                         (pauseMsOf openAIClient).
Proof.
  split; [vm_compute; discriminate|].
  apply (complete_recovers (failingFirst 3 (chatCompletion "ok")) openAIClient "hello").
  - vm_compute; discriminate.
  - intros k r Hk. change (maxAttemptsOf openAIClient) with 3 in Hk.
    unfold failingFirst. destruct (k <? 3)%nat eqn:E; [reflexivity|].
    apply Nat.ltb_ge in E. lia.
  - intros r. reflexivity.
Defined.

(** ** The generate-style extraction *)

Lemma extractGenerate_wellFormed (payload : JsVal) (c : string) :
  wellFormedGenerate payload c ->
  extractGenerate payload = Returned (success (JString c)).
Proof.
  intros (fields & first & others & -> & Hg & Ht).
  unfold extractGenerate; simpl. rewrite Hg; simpl. rewrite Ht. reflexivity.
Qed.

(** The extraction of a generate-style client reads [generations[0].text]
    with no fallback at all: what is there is the completion, a
    [generations[0]] without [text] gives a success that carries
    [undefined], and a payload, a [generations] or a [generations[0]] that
    is undefined or null makes it throw. *)
Theorem extractGenerate_cases (payload : JsVal) :
  (forall generations first text : JsVal,
     getMember payload "generations" = Returned generations ->
     getElement generations 0 = Returned first ->
     getMember first "text" = Returned text ->
     extractGenerate payload = Returned (success text)) /\
  (forall (generations : JsVal) (first : gmap string JsVal),
     getMember payload "generations" = Returned generations ->
     getElement generations 0 = Returned (JObject first) ->
     first !! "text" = None ->
     extractGenerate payload = Returned (success JUndefined)) /\
  ((nullish payload = true \/
    exists generations : JsVal,
      getMember payload "generations" = Returned generations /\
      (nullish generations = true \/
       exists first : JsVal,
         getElement generations 0 = Returned first /\ nullish first = true)) ->
   exists reading : string, extractGenerate payload = Thrown (TypeError reading)).
Proof.
  split; [|split].
  - intros generations first text Hg Hf Ht.
    unfold extractGenerate. rewrite Hg; simpl. rewrite Hf; simpl. by rewrite Ht.
  - intros generations first Hg Hf Ht.
    unfold extractGenerate. rewrite Hg; simpl. rewrite Hf; simpl. by rewrite Ht.
  - intros [Hp|(generations & Hg & [Hn|(first & Hf & Hn)])]; unfold extractGenerate.
    + destruct payload; try discriminate Hp; by eexists.
    + rewrite Hg; simpl. destruct generations; try discriminate Hn; by eexists.
    + rewrite Hg; simpl. rewrite Hf; simpl.
      destruct first; try discriminate Hn; by eexists.
Qed.

Lemma extractGenerate_cases_witness :
  extractGenerate (JObject {[ "generations" := JArray [JObject ∅] ]})
    = Returned (success JUndefined) /\
  exists reading : string,
    extractGenerate (JObject {[ "generations" := JArray [] ]})
    = Thrown (TypeError reading).
Proof.
  split.
  - destruct (extractGenerate_cases (JObject {[ "generations" := JArray [JObject ∅] ]}))
      as (_ & H & _).
    apply (H (JArray [JObject ∅]) ∅); reflexivity.
  - destruct (extractGenerate_cases (JObject {[ "generations" := JArray [] ]}))
      as (_ & _ & H).
    apply H. right. exists (JArray []). split; [reflexivity|].
    right. exists JUndefined. split; reflexivity.
Defined.

(** From a well-formed response of status 200 whose [generations[0].text]
    is [c], the call of a generate-style client returns exactly [c], after
    one request and no sleep. *)
Theorem generate_round_trip (transport : Transport) (m : TypeChatLanguageModel)
    (prompt c : string) :
  isOpenAI m = false ->
  status (transport 0%nat (requestOf m prompt)) = 200 ->
  wellFormedGenerate (data (transport 0%nat (requestOf m prompt))) c ->
  req_body (requestOf m prompt) = buildParams (defaultParams m) false prompt /\
  exists w : World,
    complete transport m prompt [] = (Returned (success (JString c)), w) /\
    posts w = [requestOf m prompt] /\
    sleeps w = [].
Proof.
  intros Hkind H200 Hwf.
  pose proof (extractGenerate_wellFormed _ _ Hwf) as Hex.
  split; [simpl; by rewrite Hkind|].
  exists (lastAttempt m prompt). split; [|split; reflexivity].
  unfold complete. rewrite completeLoop_step, attempt_eq. simpl.
  rewrite decide_True by exact H200. rewrite Hkind, Hex. reflexivity.
Qed.

Lemma generate_round_trip_witness :
  isOpenAI cohereClient = false /\
  status (always (generation "Bonjour") 0%nat (requestOf cohereClient "hello")) = 200 /\
  wellFormedGenerate
    (data (always (generation "Bonjour") 0%nat (requestOf cohereClient "hello")))
    "Bonjour" /\
  exists w : World,
    complete (always (generation "Bonjour")) cohereClient "hello" []
      = (Returned (success (JString "Bonjour")), w) /\
    posts w = [requestOf cohereClient "hello"] /\
    sleeps w = [].
Proof.
  assert (Hwf : wellFormedGenerate (data (generation "Bonjour")) "Bonjour").
  { eexists _, _, _. split; [reflexivity|]. split; reflexivity. }
  split; [reflexivity|]. split; [reflexivity|]. split; [exact Hwf|].
  apply (generate_round_trip (always (generation "Bonjour")) cohereClient
           "hello" "Bonjour" eq_refl eq_refl Hwf).
Defined.

(** ** What the clients of the three factories send *)

Lemma Forall_posts (P : Request -> Prop) transport m prompt :
  P (requestOf m prompt) ->
  Forall P (posts (complete transport m prompt []).2).
Proof.
  intros HP. destruct (complete_posts transport m prompt) as [j ->].
  by apply Forall_replicate.
Qed.

(** Every request of a client made by [createOpenAILanguageModel] goes to
    the end point given, or to the default one, with the key as a bearer
    token and the organization in the headers, and its body has exactly
    the fields [model], [messages], [n] and [temperature]. *)
Theorem openAI_client_requests (transport : Transport)
    (apiKey model : string) (endPoint org : option string) (prompt : string) :
  Forall
    (fun r =>
       req_url r = default "https://api.openai.com/v1/chat/completions" endPoint /\
       headers (req_config r) !! "Authorization" = Some ("Bearer " +:+ apiKey) /\
       headers (req_config r) !! "OpenAI-Organization" = Some (default "" org) /\
       req_body r =
         JObject {[ "model" := JString model;
                    "messages" :=
                      JArray [JObject {[ "role" := JString "user";
                                         "content" := JString prompt ]}];
                    "n" := JNumber 1;
                    "temperature" := JNumber 0.2 ]})
    (posts (complete transport
              (createOpenAILanguageModel apiKey model endPoint org) prompt []).2).
Proof.
  apply Forall_posts. split; [reflexivity|]. split; [reflexivity|].
  split; [reflexivity|].
  reflexivity.
Qed.

(** Every request of a client made by [createAzureOpenAILanguageModel] goes
    to the end point given, through a client configured with the header
    [api-key] and no other, and its body has exactly the fields
    [messages], [n] and [temperature]: no model name is sent. *)
Theorem azure_client_requests (transport : Transport)
    (apiKey endPoint prompt : string) :
  Forall
    (fun r =>
       req_url r = endPoint /\
       headers (req_config r) = {[ "api-key" := apiKey ]} /\
       req_body r =
         JObject {[ "messages" :=
                      JArray [JObject {[ "role" := JString "user";
                                         "content" := JString prompt ]}];
                    "n" := JNumber 1;
                    "temperature" := JNumber 0.2 ]})
    (posts (complete transport
              (createAzureOpenAILanguageModel apiKey endPoint) prompt []).2).
Proof.
  apply Forall_posts. split; [reflexivity|]. split; [reflexivity|].
  reflexivity.
Qed.

(** Every request of a client made by [createCohereLanguageModel] goes to
    the end point given, or to the default one, through a client configured
    with the header [Authorization] and no other, the key after the word
    BEARER in capitals, and its body has exactly the fields [model],
    [max_tokens] (what [parseInt] makes of the text given, or of 500),
    [prompt], [k], [stop_sequences], [return_likelihoods] and
    [temperature]. *)
Theorem cohere_client_requests (parseInt : string -> float)
    (transport : Transport) (apiKey model : string)
    (endPoint maxTokens : option string) (prompt : string) :
  Forall
    (fun r =>
       req_url r = default "https://api.cohere.ai/v1/generate" endPoint /\
       headers (req_config r) = {[ "Authorization" := "BEARER " +:+ apiKey ]} /\
       req_body r =
         JObject {[ "model" := JString model;
                    "max_tokens" := JNumber (parseInt (default "500" maxTokens));
                    "prompt" := JString prompt;
                    "k" := JNumber 0;
                    "stop_sequences" := JArray [];
                    "return_likelihoods" := JString "NONE";
                    "temperature" := JNumber 0.2 ]})
    (posts (complete transport
              (createCohereLanguageModel parseInt apiKey model endPoint maxTokens)
              prompt []).2).
Proof.
  apply Forall_posts. split; [reflexivity|]. split; [reflexivity|].
  reflexivity.
Qed.

(** ** What the selection reads, throws and returns *)

(** The only faults of the selection are the three missing-variable
    errors: for OPENAI_MODEL, for AZURE_OPENAI_ENDPOINT, and for the three
    credentials together.  The faults for a single credential, which the
    source also writes, are never thrown. *)
Theorem createLanguageModel_faults (parseInt : string -> float)
    (env : gmap string string) (e : Fault) :
  createLanguageModel parseInt env = Thrown e ->
  e = JsError "Missing environment variable: OPENAI_MODEL" \/
  e = JsError "Missing environment variable: AZURE_OPENAI_ENDPOINT" \/
  e = JsError ("Missing environment variable: "
               +:+ "OPENAI_API_KEY or AZURE_OPENAI_API_KEY or COHERE_API_KEY").
Proof.
  unfold createLanguageModel.
  destruct (env !! "OPENAI_API_KEY") as [[|? ?]|]; simpl;
    destruct (env !! "AZURE_OPENAI_API_KEY") as [[|? ?]|]; simpl;
    destruct (env !! "COHERE_API_KEY") as [[|? ?]|]; simpl;
    destruct (env !! "OPENAI_MODEL"); simpl;
    destruct (env !! "OPENAI_ENDPOINT"); simpl;
    destruct (env !! "OPENAI_ORGANIZATION"); simpl;
    destruct (env !! "AZURE_OPENAI_ENDPOINT"); simpl;
    destruct (env !! "COHERE_ENDPOINT"); simpl;
    destruct (env !! "MAX_TOKENS"); simpl;
    intros [= <-]; auto.
Qed.

Lemma createLanguageModel_faults_witness :
  createLanguageModel (fun _ => 500%float) {[ "OPENAI_API_KEY" := "sk-test" ]}
  = Thrown (JsError "Missing environment variable: OPENAI_MODEL") /\
  (JsError "Missing environment variable: OPENAI_MODEL"
   = JsError "Missing environment variable: OPENAI_MODEL" \/
   JsError "Missing environment variable: OPENAI_MODEL"
   = JsError "Missing environment variable: AZURE_OPENAI_ENDPOINT" \/
   JsError "Missing environment variable: OPENAI_MODEL"
   = JsError ("Missing environment variable: "
              +:+ "OPENAI_API_KEY or AZURE_OPENAI_API_KEY or COHERE_API_KEY")).
Proof.
  split; [reflexivity|].
  apply (createLanguageModel_faults (fun _ => 500%float)
           {[ "OPENAI_API_KEY" := "sk-test" ]}).
  reflexivity.
Defined.

(** The selection reads nine variables and nothing else: two environments
    that agree on them select alike. *)
Theorem createLanguageModel_reads (parseInt : string -> float)
    (env1 env2 : gmap string string) :
  (forall name : string,
     name ∈ selectionVariables -> env1 !! name = env2 !! name) ->
  createLanguageModel parseInt env1 = createLanguageModel parseInt env2.
Proof.
  intros Hsame. unfold createLanguageModel.
  rewrite !Hsame by (unfold selectionVariables, openAIVariables; set_solver).
  reflexivity.
Qed.

Lemma createLanguageModel_reads_witness :
  (forall name : string,
     name ∈ selectionVariables ->
     cohereEnv !! name = (<["HOME" := "/root"]> cohereEnv) !! name) /\
  createLanguageModel (fun _ => 64%float) cohereEnv
  = createLanguageModel (fun _ => 64%float) (<["HOME" := "/root"]> cohereEnv).
Proof.
  assert (H : forall name : string,
            name ∈ selectionVariables ->
            cohereEnv !! name = (<["HOME" := "/root"]> cohereEnv) !! name).
  { intros name Hin. rewrite lookup_insert_ne; [reflexivity|].
    intros <-. revert Hin.
    apply (bool_decide_eq_false_1 ("HOME" ∈ selectionVariables)).
    vm_compute. reflexivity. }
  split; [exact H|].
  exact (createLanguageModel_reads (fun _ => 64%float) _ _ H).
Defined.

(** When the OpenAI credential is present the variables of the other two
    providers play no part: environments that agree on the four OpenAI
    variables select alike. *)
Theorem createLanguageModel_openAI_first (parseInt : string -> float)
    (env1 env2 : gmap string string) :
  present env1 "OPENAI_API_KEY" ->
  (forall name : string,
     name ∈ openAIVariables -> env1 !! name = env2 !! name) ->
  createLanguageModel parseInt env1 = createLanguageModel parseInt env2.
Proof.
  intros Hp Hsame. apply truthy_present in Hp.
  unfold createLanguageModel.
  rewrite <- !Hsame by (unfold openAIVariables; set_solver).
  rewrite Hp. reflexivity.
Qed.

Lemma createLanguageModel_openAI_first_witness :
  present openAIEnv "OPENAI_API_KEY" /\
  (forall name : string,
     name ∈ openAIVariables -> openAIEnv !! name = openAIEnvAlone !! name) /\
  createLanguageModel (fun _ => 500%float) openAIEnv
  = createLanguageModel (fun _ => 500%float) openAIEnvAlone.
Proof.
  assert (Hp : present openAIEnv "OPENAI_API_KEY").
  { apply truthy_present. reflexivity. }
  assert (H : forall name : string,
            name ∈ openAIVariables -> openAIEnv !! name = openAIEnvAlone !! name).
  { intros name Hin. unfold openAIVariables in Hin. set_unfold in Hin.
    destruct Hin as [->|[->|[->|[->|[]]]]]; reflexivity. }
  split; [exact Hp|]. split; [exact H|].
  exact (createLanguageModel_openAI_first (fun _ => 500%float) _ _ Hp H).
Defined.

(** Only a credential is tested for emptiness.  With the OpenAI credential
    present, an OPENAI_MODEL and an OPENAI_ENDPOINT bound to the empty
    string are taken as they are: nothing is thrown, the client posts to
    the empty URL and sends the empty model name. *)
Theorem createLanguageModel_empty_companions (parseInt : string -> float)
    (env : gmap string string) :
  present env "OPENAI_API_KEY" ->
  env !! "OPENAI_MODEL" = Some "" ->
  env !! "OPENAI_ENDPOINT" = Some "" ->
  exists m : TypeChatLanguageModel,
    createLanguageModel parseInt env = Returned m /\
    url m = "" /\
    defaultParams m = {[ "model" := JString "" ]}.
Proof.
  intros (key & Hk & Hne) Hm He. unfold createLanguageModel.
  rewrite Hk, Hm, He. destruct key as [|a key]; [done|]. simpl.
  destruct (env !! "OPENAI_ORGANIZATION"); simpl; by eexists.
Qed.

Lemma createLanguageModel_empty_companions_witness :
  present openAIEnv "OPENAI_API_KEY" /\
  exists m : TypeChatLanguageModel,
    createLanguageModel (fun _ => 500%float) openAIEnv = Returned m /\
    url m = "" /\
    defaultParams m = {[ "model" := JString "" ]}.
Proof.
  assert (Hp : present openAIEnv "OPENAI_API_KEY").
  { apply truthy_present. reflexivity. }
  split; [exact Hp|].
  apply (createLanguageModel_empty_companions (fun _ => 500%float) openAIEnv Hp);
    reflexivity.
Defined.

Lemma createLanguageModel_tunables parseInt env m :
  createLanguageModel parseInt env = Returned m ->
  maxAttemptsOf m = 3 /\ pauseMsOf m = 1000 /\
  (isOpenAI m = false <->
   truthy (env !! "OPENAI_API_KEY") = false /\
   truthy (env !! "AZURE_OPENAI_API_KEY") = false).
Proof.
  unfold createLanguageModel.
  destruct (truthy (env !! "OPENAI_API_KEY")).
  { destruct (env !! "OPENAI_API_KEY"), (env !! "OPENAI_MODEL"),
      (env !! "OPENAI_ENDPOINT"), (env !! "OPENAI_ORGANIZATION"); simpl;
      intros [= <-]; (split; [reflexivity|split; [reflexivity|]]);
      cbn; (split; [discriminate|intros [? _]; discriminate]). }
  destruct (truthy (env !! "AZURE_OPENAI_API_KEY")).
  { destruct (env !! "AZURE_OPENAI_API_KEY"), (env !! "AZURE_OPENAI_ENDPOINT");
      simpl; intros [= <-]; (split; [reflexivity|split; [reflexivity|]]);
      cbn; (split; [discriminate|intros [_ ?]; discriminate]). }
  destruct (truthy (env !! "COHERE_API_KEY")); [|discriminate].
  destruct (env !! "COHERE_API_KEY"), (env !! "COHERE_ENDPOINT"),
    (env !! "MAX_TOKENS"); simpl; intros [= <-];
    (split; [reflexivity|split; [reflexivity|]]); cbn; done.
Qed.

(** A client that the selection returns has the default tunables: whatever
    the service answers, a call makes four requests at most and every
    sleep lasts 1000 milliseconds. *)
Theorem createLanguageModel_default_retry (parseInt : string -> float)
    (env : gmap string string) (m : TypeChatLanguageModel)
    (transport : Transport) (prompt : string) :
  createLanguageModel parseInt env = Returned m ->
  (length (posts (complete transport m prompt []).2) <= 4)%nat /\
  Forall (fun ms => ms = 1000) (sleeps (complete transport m prompt []).2).
Proof.
  intros Hm. apply createLanguageModel_tunables in Hm as (Hmax & Hpause & _).
  destruct (complete_run transport m prompt) as (j & Hj & _ & _ & Hrun).
  rewrite Hrun, Hmax, Hpause in *. simpl.
  rewrite length_posts_run, sleeps_run. split; [lia|].
  by apply Forall_replicate.
Qed.

Lemma createLanguageModel_default_retry_witness :
  createLanguageModel (fun _ => 64%float) cohereEnv
  = Returned (createCohereLanguageModel (fun _ => 64%float) "co-test" "command"
                (Some "https://api.cohere.ai/v1/generate") (Some "64")) /\
  (length (posts (complete (always serviceUnavailable)
                    (createCohereLanguageModel (fun _ => 64%float) "co-test"
                       "command" (Some "https://api.cohere.ai/v1/generate")
                       (Some "64")) "hello" []).2) <= 4)%nat /\
  Forall (fun ms => ms = 1000)
         (sleeps (complete (always serviceUnavailable)
                    (createCohereLanguageModel (fun _ => 64%float) "co-test"
                       "command" (Some "https://api.cohere.ai/v1/generate")
                       (Some "64")) "hello" []).2).
Proof.
  split; [reflexivity|].
  apply (createLanguageModel_default_retry (fun _ => 64%float) cohereEnv).
  reflexivity.
Defined.

(** The client returned is generate-style exactly when neither the OpenAI
    nor the Azure credential is present, that is when Cohere is selected. *)
Theorem createLanguageModel_kind (parseInt : string -> float)
    (env : gmap string string) (m : TypeChatLanguageModel) :
  createLanguageModel parseInt env = Returned m ->
  (isOpenAI m = false <->
   ~ present env "OPENAI_API_KEY" /\ ~ present env "AZURE_OPENAI_API_KEY").
Proof.
  intros Hm. apply createLanguageModel_tunables in Hm as (_ & _ & Hkind).
  by rewrite <- !truthy_absent.
Qed.

Lemma createLanguageModel_kind_witness :
  createLanguageModel (fun _ => 500%float) azureEnv
  = Returned (createAzureOpenAILanguageModel "az-test"
                "https://example.openai.azure.com/") /\
  (isOpenAI (createAzureOpenAILanguageModel "az-test"
               "https://example.openai.azure.com/") = false <->
   ~ present azureEnv "OPENAI_API_KEY" /\
   ~ present azureEnv "AZURE_OPENAI_API_KEY").
Proof.
  split; [reflexivity|].
  apply (createLanguageModel_kind (fun _ => 500%float) azureEnv).
  reflexivity.
Defined.

(** ** The compiled build: the call *)

Lemma dist_attempt_eq transport m prompt w :
  Dist.attempt transport m prompt w =
  (transport (length (posts w)) (Dist.requestOf m prompt),
   w ++ [Dist.logged m prompt; HttpPost (Dist.requestOf m prompt)]).
Proof.
  unfold Dist.attempt, post, Dist.logged, Dist.requestOf, posts; simpl.
  rewrite omap_app, length_app, Nat.add_0_r, <- app_assoc. reflexivity.
Qed.

Lemma dist_completeLoop_step transport m prompt maxAttempts pauseMs retryCount w :
  Dist.completeLoop transport m prompt maxAttempts pauseMs retryCount w =
  let result := (Dist.attempt transport m prompt w).1 in
  let w1 := (Dist.attempt transport m prompt w).2 in
  if decide (status result = 200) then
    (if isOpenAI m then extractOpenAI (data result)
     else extractGenerate (data result), w1)
  else if negb (isTransientHttpError (status result))
          || bool_decide (retryCount >= maxAttempts) then
    Dist.errorExit result w1
  else
    Dist.completeLoop transport m prompt maxAttempts pauseMs (retryCount + 1)
                      (w1 ++ [Sleep pauseMs]).
Proof.
  simp completeLoop.
  destruct (Dist.attempt transport m prompt w) as [result w1]; simpl.
  destruct (Z.eq_dec (status result) 200) as [E|E]; simpl.
  - rewrite decide_True by done. reflexivity.
  - rewrite decide_False by done.
    destruct (isTransientHttpError (status result)); simpl; [|reflexivity].
    destruct (Z_ge_lt_dec retryCount maxAttempts) as [G|G]; simpl.
    + rewrite bool_decide_eq_true_2 by done. reflexivity.
    + rewrite bool_decide_eq_false_2 by lia. reflexivity.
Qed.

Lemma getMember_of_defined v name :
  nullish v = false -> exists x, getMember v name = Returned x.
Proof. destruct v; simpl; intros H; try discriminate H; by eexists. Qed.

Lemma dist_errorExit_defined result w :
  (status result = 400 -> nullish (data result) = false) ->
  (Dist.errorExit result w).1 = Returned (error (restApiError result)) /\
  posts (Dist.errorExit result w).2 = posts w /\
  sleeps (Dist.errorExit result w).2 = sleeps w.
Proof.
  intros Hdata. unfold Dist.errorExit.
  destruct (decide (status result = 400)) as [E|E]; [|done].
  destruct (getMember_of_defined _ "message" (Hdata E)) as [x ->]. simpl.
  rewrite posts_app, sleeps_app. simpl. by rewrite !app_nil_r.
Qed.

Lemma dist_completeLoop_refines transport m prompt maxAttempts pauseMs :
  (forall k : nat, transport k (Dist.requestOf m prompt)
                   = transport k (requestOf m prompt)) ->
  (forall k : nat,
     status (transport k (requestOf m prompt)) = 400 ->
     nullish (data (transport k (requestOf m prompt))) = false) ->
  forall (n : nat) (retryCount : Z) (w w' : World),
    Z.to_nat (maxAttempts - retryCount) = n ->
    length (posts w') = length (posts w) ->
    sleeps w' = sleeps w ->
    (Dist.completeLoop transport m prompt maxAttempts pauseMs retryCount w').1
    = (completeLoop transport m prompt maxAttempts pauseMs retryCount w).1 /\
    length (posts (Dist.completeLoop transport m prompt maxAttempts pauseMs
                                     retryCount w').2)
    = length (posts (completeLoop transport m prompt maxAttempts pauseMs
                                  retryCount w).2) /\
    sleeps (Dist.completeLoop transport m prompt maxAttempts pauseMs retryCount w').2
    = sleeps (completeLoop transport m prompt maxAttempts pauseMs retryCount w).2.
Proof.
  intros Hsame Hdata.
  induction n as [|n IH]; intros retryCount w w' Hn Hposts Hsleeps;
    rewrite dist_completeLoop_step, completeLoop_step,
            dist_attempt_eq, attempt_eq; simpl;
    rewrite Hposts, Hsame;
    set (result := transport (length (posts w)) (requestOf m prompt)).
  all: assert (Hp1 : length (posts (w' ++ [Dist.logged m prompt;
                                           HttpPost (Dist.requestOf m prompt)]))
                     = length (posts (w ++ lastAttempt m prompt)))
         by (rewrite !posts_app, !length_app; simpl; lia).
  all: assert (Hs1 : sleeps (w' ++ [Dist.logged m prompt;
                                    HttpPost (Dist.requestOf m prompt)])
                     = sleeps (w ++ lastAttempt m prompt))
         by (rewrite !sleeps_app; simpl; by rewrite Hsleeps).
  all: destruct (decide (status result = 200)); [by simpl|].
  all: destruct (isTransientHttpError (status result)); simpl.
  all: try (destruct (dist_errorExit_defined result
               (w' ++ [Dist.logged m prompt; HttpPost (Dist.requestOf m prompt)])
               (Hdata _)) as (-> & -> & ->); by rewrite Hs1, Hp1).
  all: destruct (bool_decide (retryCount >= maxAttempts)) eqn:Eg.
  all: try (destruct (dist_errorExit_defined result
               (w' ++ [Dist.logged m prompt; HttpPost (Dist.requestOf m prompt)])
               (Hdata _)) as (-> & -> & ->); by rewrite Hs1, Hp1).
  all: apply bool_decide_eq_false_1 in Eg.
  - lia.
  - apply IH; [lia| |].
    + rewrite !(posts_app _ [Sleep pauseMs]), !length_app. by rewrite Hp1.
    + rewrite !(sleeps_app _ [Sleep pauseMs]). by rewrite Hs1.
Qed.

(** The call of the build against the call of the source.  Where the
    service answers both requests alike (they differ by the temperature)
    and sends no response of status 400 with an undefined or null payload,
    the two return the same result after as many requests and the same
    sleeps. *)
Theorem dist_complete_refines (transport : Transport)
    (m : TypeChatLanguageModel) (prompt : string) :
  (forall k : nat, transport k (Dist.requestOf m prompt)
                   = transport k (requestOf m prompt)) ->
  (forall k : nat,
     status (transport k (requestOf m prompt)) = 400 ->
     nullish (data (transport k (requestOf m prompt))) = false) ->
  (Dist.complete transport m prompt []).1 = (complete transport m prompt []).1 /\
  length (posts (Dist.complete transport m prompt []).2)
  = length (posts (complete transport m prompt []).2) /\
  sleeps (Dist.complete transport m prompt []).2
  = sleeps (complete transport m prompt []).2.
Proof.
  intros Hsame Hdata. unfold Dist.complete, complete.
  by apply (dist_completeLoop_refines _ _ _ _ _ Hsame Hdata _ _ _ _ eq_refl).
Qed.

Lemma dist_complete_refines_witness :
  (forall k : nat,
     failingFirst 2 (chatCompletion "ok") k (Dist.requestOf openAIClient "hello")
     = failingFirst 2 (chatCompletion "ok") k (requestOf openAIClient "hello")) /\
  (Dist.complete (failingFirst 2 (chatCompletion "ok")) openAIClient "hello" []).1
  = (complete (failingFirst 2 (chatCompletion "ok")) openAIClient "hello" []).1 /\
  length (posts (Dist.complete (failingFirst 2 (chatCompletion "ok"))
                               openAIClient "hello" []).2)
  = length (posts (complete (failingFirst 2 (chatCompletion "ok"))
                            openAIClient "hello" []).2) /\
  sleeps (Dist.complete (failingFirst 2 (chatCompletion "ok"))
                        openAIClient "hello" []).2
  = sleeps (complete (failingFirst 2 (chatCompletion "ok"))
                     openAIClient "hello" []).2.
Proof.
  split; [reflexivity|].
  apply (dist_complete_refines (failingFirst 2 (chatCompletion "ok"))
           openAIClient "hello").
  - reflexivity.
  - intros k. unfold failingFirst.
    destruct (k <? 2)%nat; simpl; intros H; discriminate H.
Defined.

(** On a response of status 400 whose payload is undefined or null the
    call of the build throws, from the access it logs, where the call of
    the source returns an error result. *)
Theorem dist_complete_throws_on_400 (transport : Transport)
    (m : TypeChatLanguageModel) (prompt : string) :
  transport 0%nat (Dist.requestOf m prompt) = transport 0%nat (requestOf m prompt) ->
  status (transport 0%nat (requestOf m prompt)) = 400 ->
  nullish (data (transport 0%nat (requestOf m prompt))) = true ->
  (Dist.complete transport m prompt []).1 = Thrown (TypeError "message") /\
  (complete transport m prompt []).1
  = Returned (error (restApiError (transport 0%nat (requestOf m prompt)))).
Proof.
  intros Hsame H400 Hnull. unfold Dist.complete, complete.
  rewrite dist_completeLoop_step, completeLoop_step, dist_attempt_eq, attempt_eq.
  simpl. rewrite Hsame.
  rewrite !decide_False by (rewrite H400; discriminate).
  rewrite H400. simpl. unfold Dist.errorExit.
  rewrite decide_True by exact H400.
  split; [|reflexivity].
  destruct (data (transport 0%nat (requestOf m prompt)));
    try discriminate Hnull; reflexivity.
Qed.

Lemma dist_complete_throws_on_400_witness :
  status (always badRequest 0%nat (requestOf openAIClient "hello")) = 400 /\
  nullish (data (always badRequest 0%nat (requestOf openAIClient "hello"))) = true /\
  (Dist.complete (always badRequest) openAIClient "hello" []).1
  = Thrown (TypeError "message") /\
  (complete (always badRequest) openAIClient "hello" []).1
  = Returned (error "REST API error 400: Bad Request").
Proof.
  split; [reflexivity|]. split; [reflexivity|].
  apply (dist_complete_throws_on_400 (always badRequest) openAIClient "hello");
    reflexivity.
Defined.

(** ** The compiled build: the selection *)

(** For every environment the selection of the build throws the fault the
    selection of the source throws, or returns a client that captures what
    the client of the source captures: the same URL, configured headers,
    default parameters and provider kind, with both tunables undefined.
    The two clients differ by their [complete], the one of the build and
    the one of the source. *)
Theorem dist_createLanguageModel_refines (parseInt : string -> float)
    (env : gmap string string) (w : World) :
  (Dist.createLanguageModel parseInt env w).1 = createLanguageModel parseInt env.
Proof.
  unfold Dist.createLanguageModel, createLanguageModel.
  destruct (truthy (env !! "OPENAI_API_KEY")); [reflexivity|].
  destruct (truthy (env !! "AZURE_OPENAI_API_KEY")); [reflexivity|].
  destruct (env !! "COHERE_API_KEY") as [[|a key]|]; simpl; try reflexivity.
  by destruct (env !! "COHERE_ENDPOINT"), (env !! "MAX_TOKENS").
Qed.

(** What the build writes to the console.  It always announces the
    selection; when Cohere is selected it also writes the API key itself,
    with the end point and the token limit; for the other outcomes it
    writes nothing more. *)
Theorem dist_createLanguageModel_console (parseInt : string -> float)
    (env : gmap string string) (w : World) :
  (~ present env "OPENAI_API_KEY" -> ~ present env "AZURE_OPENAI_API_KEY" ->
   forall key : string,
     env !! "COHERE_API_KEY" = Some key -> key <> "" ->
     (Dist.createLanguageModel parseInt env w).2 =
     w ++ [ConsoleLog [JString "Creating a language model..."];
           ConsoleLog [JString "Cohere API key detected..."];
           ConsoleLog [JObject
             {[ "apiKey" := JString key;
                "endPoint" := JString (default "https://api.cohere.ai/v1/generate"
                                               (env !! "COHERE_ENDPOINT"));
                "maxTokens" := JString (default "500" (env !! "MAX_TOKENS")) ]}]]) /\
  ((present env "OPENAI_API_KEY" \/ present env "AZURE_OPENAI_API_KEY" \/
    ~ present env "COHERE_API_KEY") ->
   (Dist.createLanguageModel parseInt env w).2 =
   w ++ [ConsoleLog [JString "Creating a language model..."]]).
Proof.
  rewrite <- !truthy_absent, <- !truthy_present. unfold Dist.createLanguageModel.
  split.
  - intros -> -> key -> Hne. destruct key as [|a key]; [done|]. simpl.
    rewrite <- !app_assoc. reflexivity.
  - intros [->|[Ha|Hc]]; [reflexivity| |].
    + rewrite Ha. by destruct (truthy (env !! "OPENAI_API_KEY")).
    + rewrite Hc.
      by destruct (truthy (env !! "OPENAI_API_KEY")),
                  (truthy (env !! "AZURE_OPENAI_API_KEY")).
Qed.

Lemma dist_createLanguageModel_console_witness :
  ~ present cohereEnv "OPENAI_API_KEY" /\
  ~ present cohereEnv "AZURE_OPENAI_API_KEY" /\
  (Dist.createLanguageModel (fun _ => 64%float) cohereEnv []).2 =
  [ConsoleLog [JString "Creating a language model..."];
   ConsoleLog [JString "Cohere API key detected..."];
   ConsoleLog [JObject
     {[ "apiKey" := JString "co-test";
        "endPoint" := JString "https://api.cohere.ai/v1/generate";
        "maxTokens" := JString "64" ]}]].
Proof.
  assert (Ho : ~ present cohereEnv "OPENAI_API_KEY").
  { apply truthy_absent. reflexivity. }
  assert (Ha : ~ present cohereEnv "AZURE_OPENAI_API_KEY").
  { apply truthy_absent. reflexivity. }
  split; [exact Ho|]. split; [exact Ha|].
  destruct (dist_createLanguageModel_console (fun _ => 64%float) cohereEnv [])
    as [Hcohere _].
  apply (Hcohere Ho Ha "co-test"); [reflexivity|discriminate].
Defined.

(** ** Where a call stops *)

(** A call stops at the first response that is final: when the first [i]
    responses are transient failures, [i] is within the retry budget and
    response [i] has status 200 or a status that is not transient, the call
    makes [i + 1] requests, sleeps [i] times and ends on response [i]. *)
Theorem complete_stops_at_first_final (transport : Transport)
    (m : TypeChatLanguageModel) (prompt : string) (i : nat) :
  (forall k : nat, (k < i)%nat ->
     isTransientHttpError (status (transport k (requestOf m prompt))) = true) ->
  Z.of_nat i <= maxAttemptsOf m ->
  status (transport i (requestOf m prompt)) = 200 \/
  isTransientHttpError (status (transport i (requestOf m prompt))) = false ->
  complete transport m prompt [] =
  (conclude m (transport i (requestOf m prompt)),
   retried m prompt (pauseMsOf m) i ++ lastAttempt m prompt) /\
  length (posts (complete transport m prompt []).2) = S i /\
  sleeps (complete transport m prompt []).2 = replicate i (pauseMsOf m).
Proof.
  intros Hbefore Hi Hfinal.
  destruct (complete_run transport m prompt) as (j & Hj & Htr & Hexit & Hrun).
  assert (j = i) as ->.
  { destruct (Nat.lt_trichotomy j i) as [Hlt|[Heq|Hgt]]; [|exact Heq|].
    - pose proof (Hbefore j Hlt) as Ht. rewrite Ht in Hexit.
      destruct Hexit as [H|[H|H]]; [|discriminate H|lia].
      rewrite H in Ht. discriminate Ht.
    - destruct (Htr i Hgt) as [Hne Ht].
      destruct Hfinal as [H|H]; [done|]. rewrite H in Ht. discriminate Ht. }
  rewrite Hrun. simpl. rewrite length_posts_run, sleeps_run. done.
Qed.

Lemma complete_stops_at_first_final_witness :
  (forall k : nat, (k < 2)%nat ->
     isTransientHttpError
       (status (failingFirst 2 unauthorized k (requestOf openAIClient "hello")))
     = true) /\
  Z.of_nat 2 <= maxAttemptsOf openAIClient /\
  complete (failingFirst 2 unauthorized) openAIClient "hello" [] =
  (Returned (error "REST API error 401: Unauthorized"),
   retried openAIClient "hello" (pauseMsOf openAIClient) 2
   ++ lastAttempt openAIClient "hello") /\
  length (posts (complete (failingFirst 2 unauthorized) openAIClient "hello" []).2)
  = 3%nat /\
  sleeps (complete (failingFirst 2 unauthorized) openAIClient "hello" []).2
  = replicate 2 (pauseMsOf openAIClient).
Proof.
  assert (H : forall k : nat, (k < 2)%nat ->
     isTransientHttpError
       (status (failingFirst 2 unauthorized k (requestOf openAIClient "hello")))
     = true).
  { intros k Hk. unfold failingFirst.
    destruct (k <? 2)%nat eqn:E; [reflexivity|]. apply Nat.ltb_ge in E. lia. }
  split; [exact H|]. split; [vm_compute; discriminate|].
  apply (complete_stops_at_first_final (failingFirst 2 unauthorized)
           openAIClient "hello" 2 H).
  - vm_compute; discriminate.
  - right. reflexivity.
Defined.



(** ** The retry bound as a JavaScript number *)

Lemma completeLoopNumber_integer transport m prompt (z pauseMs : Z) :
  z <= 2 ^ 53 ->
  forall (fuel : nat) (retryCount : Z) (w : World),
    (Z.to_nat (z - retryCount) < fuel)%nat ->
    completeLoopNumber fuel transport m prompt (ofInteger z) pauseMs retryCount w
    = Some (completeLoop transport m prompt z pauseMs retryCount w).
Proof.
  intros Hz. induction fuel as [|fuel IH]; intros retryCount w Hfuel; [lia|].
  cbn [completeLoopNumber]. rewrite completeLoop_step. cbv zeta.
  destruct (decide (status (attempt transport m prompt w).1 = 200));
    [reflexivity|].
  destruct (isTransientHttpError (status (attempt transport m prompt w).1));
    cbn [negb orb]; [|reflexivity].
  unfold reached, ofInteger. rewrite Z.mul_1_r.
  destruct (Z.leb_spec z retryCount) as [Hle|Hlt].
  - rewrite bool_decide_eq_true_2 by lia. reflexivity.
  - rewrite bool_decide_eq_false_2 by lia.
    unfold increment. destruct (Z.ltb_spec retryCount (2 ^ 53)) as [_|Hge]; [|lia].
    apply IH. lia.
Qed.

(** On a bound that is an integer up to 2^53 the loop over numbers ends,
    given [retryMaxAttempts + 1] rounds or more, and ends as the loop over
    integers does: with the same result and the same trace. *)
Theorem completeNumber_integer (fuel : nat) (transport : Transport)
    (m : TypeChatLanguageModel) (prompt : string) (w : World) :
  maxAttemptsOf m <= 2 ^ 53 ->
  (Z.to_nat (maxAttemptsOf m) < fuel)%nat ->
  completeNumber fuel transport m (ofInteger <$> retryMaxAttempts m) prompt w
  = Some (complete transport m prompt w).
Proof.
  intros Hmax Hfuel. unfold completeNumber, complete.
  replace (default (ofInteger 3) (ofInteger <$> retryMaxAttempts m))
    with (ofInteger (maxAttemptsOf m))
    by (unfold maxAttemptsOf; by destruct (retryMaxAttempts m)).
  apply completeLoopNumber_integer; [exact Hmax|].
  by rewrite Z.sub_0_r.
Qed.

Lemma completeNumber_integer_witness :
  maxAttemptsOf openAIClient <= 2 ^ 53 /\
  (Z.to_nat (maxAttemptsOf openAIClient) < 4)%nat /\
  completeNumber 4 (always serviceUnavailable) openAIClient
                 (ofInteger <$> retryMaxAttempts openAIClient) "hello" []
  = Some (complete (always serviceUnavailable) openAIClient "hello" []).
Proof.
  split; [vm_compute; discriminate|]. split; [vm_compute; lia|].
  apply (completeNumber_integer 4 (always serviceUnavailable) openAIClient "hello" []).
  - vm_compute; discriminate.
  - vm_compute; lia.
Defined.

Lemma increment_bounded retryCount :
  retryCount <= 2 ^ 53 -> increment retryCount <= 2 ^ 53.
Proof.
  intros H. unfold increment.
  destruct (Z.ltb_spec retryCount (2 ^ 53)); lia.
Qed.

Lemma reached_outOfReach retryCount maxAttempts :
  outOfReach maxAttempts -> retryCount <= 2 ^ 53 ->
  reached retryCount maxAttempts = false.
Proof.
  destruct maxAttempts as [| | |n d]; simpl; intros Hout Hrc; try done.
  apply Z.leb_gt. nia.
Qed.

Lemma completeLoopNumber_outOfReach transport m prompt maxAttempts pauseMs :
  outOfReach maxAttempts ->
  (forall k r, isTransientHttpError (status (transport k r)) = true) ->
  forall (fuel : nat) (retryCount : Z) (w : World),
    retryCount <= 2 ^ 53 ->
    completeLoopNumber fuel transport m prompt maxAttempts pauseMs retryCount w
    = None.
Proof.
  intros Hout Htr. induction fuel as [|fuel IH]; intros retryCount w Hrc;
    [reflexivity|].
  cbn [completeLoopNumber]. rewrite attempt_eq. cbv zeta. cbn [fst snd].
  pose proof (Htr (length (posts w)) (requestOf m prompt)) as Ht.
  rewrite decide_False by (intros E; rewrite E in Ht; discriminate Ht).
  rewrite Ht, (reached_outOfReach _ _ Hout Hrc). cbn [negb orb].
  apply IH. by apply increment_bounded.
Qed.

(** With a [retryMaxAttempts] that is not a number, plus infinity or a
    finite value above 2^53, and a service that only answers with
    transient statuses, the call never returns: no number of rounds
    suffices. *)
Theorem completeNumber_never_returns (transport : Transport)
    (m : TypeChatLanguageModel) (maxAttempts : JsNumber) (prompt : string)
    (w : World) :
  outOfReach maxAttempts ->
  (forall k r, isTransientHttpError (status (transport k r)) = true) ->
  forall fuel : nat,
    completeNumber fuel transport m (Some maxAttempts) prompt w = None.
Proof.
  intros Hout Htr fuel. unfold completeNumber.
  apply completeLoopNumber_outOfReach; [exact Hout|exact Htr|].
  vm_compute; discriminate.
Qed.

Lemma completeNumber_never_returns_witness :
  outOfReach PlusInfinity /\
  (forall k r,
     isTransientHttpError (status (always serviceUnavailable k r)) = true) /\
  forall fuel : nat,
    completeNumber fuel (always serviceUnavailable) openAIClient
                   (Some PlusInfinity) "hello" [] = None.
Proof.
  split; [exact I|]. split; [reflexivity|].
  apply (completeNumber_never_returns (always serviceUnavailable) openAIClient
           PlusInfinity "hello" [] I).
  reflexivity.
Defined.

(** A bound with a fraction counts as the next integer: with 1.5 a call
    gives up after three requests. *)
Example completeNumber_fraction :
  (fun run => (run.1, length (posts run.2)))
    <$> completeNumber 5 (always serviceUnavailable) openAIClient
                       (Some (Finite 3 2)) "hello" []
  = Some (Returned (error "REST API error 503: Service Unavailable"), 3%nat).
Proof. vm_compute. reflexivity. Qed.
